(** * local-rag-system: chunker, vector store, RAG pipeline and upload endpoint

    A shallow embedding of [backend/app/rag/chunker.py],
    [backend/app/rag/vector_store.py], [backend/app/rag/rag_pipeline.py] and
    [backend/app/api/upload.py], with the properties of the specification
    stated and settled against it.

    Conventions.
    - Python [int] is [Z]; [len(x)] is [Z.of_nat (length x)].
    - Python [str] is [string]; text is taken to be ASCII, and [isspace]
      lists the ASCII characters for which [str.isspace] holds (the class
      matched by [\s] in a [str] pattern and used by [str.split()] and
      [str.strip()]).
    - A function that can raise returns a [result]; a method that mutates
      [self] takes the state and returns the new state next to its result.
    - A [while] loop takes fuel; [None] means that the fuel ran out. *)

From Stdlib Require Import ZArith QArith Lia List Ascii String DecimalString.
From stdpp Require Import base option list sorting strings gmap.

Local Open Scope Z_scope.

(** ** Python values used throughout *)

Abbreviation len l := (Z.of_nat (length l)).

(** Exceptions that the modelled code raises or lets through. *)
Inductive exn :=
| ValueError (msg : string)
| IndexError
| AssertionError
| AttributeError
| OSError
| HTTPException (status_code : Z) (detail : string).

Inductive result (A : Type) :=
| Ok (a : A)
| Raise (e : exn).
Arguments Ok {A} a.
Arguments Raise {A} e.

Definition nl : string := String (ascii_of_nat 10) "".

(** [l[start:stop]] with Python's treatment of negative and out-of-range
    bounds. *)
Definition py_slice_bound (n i : Z) : Z :=
  if i <? 0 then Z.max (i + n) 0 else Z.min i n.

Definition py_slice {A} (l : list A) (start stop : Z) : list A :=
  let n := len l in
  let lo := py_slice_bound n start in
  let hi := py_slice_bound n stop in
  take (Z.to_nat (hi - lo)) (drop (Z.to_nat lo) l).

(** [l[i]]: [None] stands for [IndexError]. *)
Definition py_getitem {A} (l : list A) (i : Z) : option A :=
  let n := len l in
  if (0 <=? i) && (i <? n) then l !! Z.to_nat i
  else if (- n <=? i) && (i <? 0) then l !! Z.to_nat (i + n)
  else None.

(** ** Strings: [str.isspace], [re.sub(r'\s+', ' ', _)], [strip], [split], [join] *)

Definition isspace (a : ascii) : bool :=
  let n := N_of_ascii a in
  ((9 <=? n) && (n <=? 13) || (28 <=? n) && (n <=? 32))%N.

Definition is_empty (s : string) : bool :=
  match s with EmptyString => true | String _ _ => false end.

(** [re.sub(r'\s+', ' ', s)]: [in_run] tells that the previous character
    was white space, already replaced. *)
Fixpoint collapse_ws (in_run : bool) (s : string) : string :=
  match s with
  | EmptyString => EmptyString
  | String a s' =>
      if isspace a
      then (if in_run then collapse_ws true s' else String " " (collapse_ws true s'))
      else String a (collapse_ws false s')
  end.

Fixpoint lstrip (s : string) : string :=
  match s with
  | EmptyString => EmptyString
  | String a s' => if isspace a then lstrip s' else s
  end.

Fixpoint rstrip (s : string) : string :=
  match s with
  | EmptyString => EmptyString
  | String a s' =>
      let r := rstrip s' in
      if isspace a && is_empty r then EmptyString else String a r
  end.

Definition strip (s : string) : string := rstrip (lstrip s).

(** [s.split()]: [w] is the word being read. *)
Definition emit (w : string) : list string :=
  if is_empty w then [] else [w].

Fixpoint split_go (w : string) (s : string) : list string :=
  match s with
  | EmptyString => emit w
  | String a s' =>
      if isspace a then emit w ++ split_go "" s'
      else split_go (w +:+ String a "") s'
  end.

Definition split (s : string) : list string := split_go "" s.

(** [sep.join(l)] *)
Fixpoint join (sep : string) (l : list string) : string :=
  match l with
  | [] => ""
  | [x] => x
  | x :: r => x +:+ sep +:+ join sep r
  end.

Definition str_of_Z (z : Z) : string := NilEmpty.string_of_int (Z.to_int z).

(** ** chunker.py *)

Module Chunker.

(** A chunk dict. ['total_chunks'] is [None] until the final pass. *)
Record Chunk := mkChunk {
  md_text : string;
  md_filename : string;
  md_file_type : string;
  md_chunk_index : Z;
  md_total_chunks : option Z
}.

Record TextChunker := mkTextChunker {
  chunk_size : Z;
  overlap : Z;
  words_per_chunk : Z;
  words_overlap : Z
}.

(** [int(x * 0.75)]: the product is exact in double precision for
    [|x| < 2^51], and [int] truncates toward zero. *)
Definition int_times_075 (x : Z) : Z := Z.quot (x * 3) 4.

(** [TextChunker.__init__]: every pair of integers is accepted. *)
Definition TextChunker_init (chunk_size overlap : Z) : TextChunker :=
  {| chunk_size := chunk_size;
     overlap := overlap;
     words_per_chunk := int_times_075 chunk_size;
     words_overlap := int_times_075 overlap |}.

Definition _clean_text (text : string) : string :=
  let text := collapse_ws false text in
  let text := strip text in
  text.

Definition set_total (total : Z) (c : Chunk) : Chunk :=
  {| md_text := md_text c; md_filename := md_filename c;
     md_file_type := md_file_type c; md_chunk_index := md_chunk_index c;
     md_total_chunks := Some total |}.

Section ChunkText.
Variable self : TextChunker.
Variable words : list string.
Variables filename file_type : string.

(** The chunk appended by one iteration of the loop. *)
Definition window (chunk_index start_idx : Z) : Chunk :=
  let end_idx := start_idx + words_per_chunk self in
  let chunk_words := py_slice words start_idx end_idx in
  let chunk_text := join " " chunk_words in
  {| md_text := chunk_text; md_filename := filename;
     md_file_type := file_type; md_chunk_index := chunk_index;
     md_total_chunks := None |}.

(** [while start_idx < len(words): ...]; one unit of fuel per test of
    the loop condition. *)
Fixpoint chunk_loop (fuel : nat) (chunks : list Chunk)
    (chunk_index start_idx : Z) : option (list Chunk) :=
  match fuel with
  | O => None
  | S fuel' =>
      if start_idx <? len words then
        let end_idx := start_idx + words_per_chunk self in
        let chunks := chunks ++ [window chunk_index start_idx] in
        let start_idx := start_idx + (words_per_chunk self - words_overlap self) in
        let chunk_index := chunk_index + 1 in
        if end_idx >=? len words then Some chunks
        else chunk_loop fuel' chunks chunk_index start_idx
      else Some chunks
  end.
End ChunkText.

Definition chunk_text (self : TextChunker) (text filename file_type : string)
    (fuel : nat) : option (list Chunk) :=
  let text := _clean_text text in
  let words := split text in
  if len words <=? words_per_chunk self then
    Some [ {| md_text := text; md_filename := filename;
              md_file_type := file_type; md_chunk_index := 0;
              md_total_chunks := Some 1 |} ]
  else
    match chunk_loop self words filename file_type fuel [] 0 0 with
    | None => None
    | Some chunks =>
        let total := len chunks in
        Some (map (set_total total) chunks)
    end.

End Chunker.

Import Chunker.

(** ** External collaborators

    The numerical library, the nearest-neighbour index and the embedding
    model are used as black boxes; the code only moves their values
    around. *)
Class Backend := {
  (** a row of an [np.ndarray] *)
  vector : Type;
  (** a distance as returned by the index, and a Python [float] *)
  distance : Type;
  similarity : Type;
  (** [row.astype('float32')] *)
  astype_float32 : vector -> vector;
  (** [IndexFlatL2.search(query, k)] on an index of dimension [d] holding
      [xb]: the pairs [zip(distances[0], indices[0])], or an exception *)
  faiss_search : Z -> list vector -> vector -> Z -> result (list (distance * Z));
  (** [1.0 - (float(dist) / 2.0)] *)
  score_of_distance : distance -> similarity;
  (** [LocalEmbedder.embed_query] *)
  embed_query : string -> vector
}.

(** ** vector_store.py *)

Module VectorStore.
Section WithBackend.
Context `{Backend}.

(** A two-dimensional array of shape [(length nd_rows, nd_dim)]. *)
Record ndarray := mkNdarray { nd_rows : list vector; nd_dim : Z }.

Definition shape0 (a : ndarray) : Z := len (nd_rows a).

(** [faiss.IndexFlatL2]: the vectors in insertion order. *)
Record IndexFlatL2 := mkIndex { d : Z; xb : list vector }.

Definition ntotal (ix : IndexFlatL2) : Z := len (xb ix).

(** [index.add(x)]: the wrapper asserts that the second dimension of
    [x] is the dimension of the index. *)
Definition index_add (ix : IndexFlatL2) (x : ndarray) : result IndexFlatL2 :=
  if nd_dim x =? d ix
  then Ok {| d := d ix; xb := xb ix ++ nd_rows x |}
  else Raise AssertionError.

(** The object together with the two files under [storage_path];
    [None] is a file that does not exist. Writing is taken to succeed. *)
Record FAISSVectorStore := mkStore {
  embedding_dim : Z;
  index : IndexFlatL2;
  metadata : list Chunk;
  index_file : option IndexFlatL2;
  metadata_file : option (list Chunk)
}.

Definition _create_new_index (self : FAISSVectorStore) : FAISSVectorStore :=
  {| embedding_dim := embedding_dim self;
     index := {| d := embedding_dim self; xb := [] |};
     metadata := [];
     index_file := index_file self;
     metadata_file := metadata_file self |}.

Definition save (self : FAISSVectorStore) : FAISSVectorStore :=
  {| embedding_dim := embedding_dim self;
     index := index self;
     metadata := metadata self;
     index_file := Some (index self);
     metadata_file := Some (metadata self) |}.

(** [__init__] on a directory holding the given files. *)
Definition init (embedding_dim : Z) (index_file : option IndexFlatL2)
    (metadata_file : option (list Chunk)) : result FAISSVectorStore :=
  match index_file with
  | Some ix =>
      match metadata_file with
      | Some md =>
          Ok {| embedding_dim := embedding_dim; index := ix; metadata := md;
                index_file := index_file; metadata_file := metadata_file |}
      | None => Raise OSError
      end
  | None =>
      Ok {| embedding_dim := embedding_dim;
            index := {| d := embedding_dim; xb := [] |}; metadata := [];
            index_file := None; metadata_file := metadata_file |}
  end.

Definition add_vectors (self : FAISSVectorStore) (embeddings : ndarray)
    (metadata_list : list Chunk) : result unit * FAISSVectorStore :=
  if negb (shape0 embeddings =? len metadata_list) then
    (Raise (ValueError "Number of embeddings must match metadata list length"), self)
  else
    match index_add (index self)
            {| nd_rows := astype_float32 <$> nd_rows embeddings;
               nd_dim := nd_dim embeddings |} with
    | Raise e => (Raise e, self)
    | Ok ix =>
        let self := {| embedding_dim := embedding_dim self;
                       index := ix;
                       metadata := metadata self ++ metadata_list;
                       index_file := index_file self;
                       metadata_file := metadata_file self |} in
        (Ok tt, save self)
    end.

(** A result dict of [search]. *)
Record Hit := mkHit {
  r_text : string;
  r_filename : string;
  r_file_type : string;
  r_chunk_index : Z;
  r_score : similarity
}.

(** Truth value of [filter_filenames]: [None] and the empty list are
    false. *)
Definition truthy (filter_filenames : option (list string)) : bool :=
  match filter_filenames with
  | Some (_ :: _) => true
  | _ => false
  end.

Definition not_in (x : string) (filter_filenames : option (list string)) : bool :=
  match filter_filenames with
  | Some l => bool_decide (x ∉ l)
  | None => false
  end.

(** The [for dist, idx in zip(distances[0], indices[0])] loop. *)
Fixpoint search_loop (self : FAISSVectorStore) (top_k : Z)
    (filter_filenames : option (list string))
    (pairs : list (distance * Z)) (results : list Hit) : result (list Hit) :=
  match pairs with
  | [] => Ok results
  | (dist, idx) :: pairs =>
      if idx =? -1 then search_loop self top_k filter_filenames pairs results
      else
        match py_getitem (metadata self) idx with
        | None => Raise IndexError
        | Some md =>
            if truthy filter_filenames && not_in (md_filename md) filter_filenames
            then search_loop self top_k filter_filenames pairs results
            else
              let similarity_score := score_of_distance dist in
              let results := results ++
                [ {| r_text := md_text md; r_filename := md_filename md;
                     r_file_type := md_file_type md;
                     r_chunk_index := md_chunk_index md;
                     r_score := similarity_score |} ] in
              if len results >=? top_k then Ok results
              else search_loop self top_k filter_filenames pairs results
        end
  end.

Definition search (self : FAISSVectorStore) (query_embedding : vector)
    (top_k : Z) (filter_filenames : option (list string)) : result (list Hit) :=
  if ntotal (index self) =? 0 then Ok []
  else
    let query_vector := astype_float32 query_embedding in
    match faiss_search (d (index self)) (xb (index self)) query_vector
            (Z.min (top_k * 2) (ntotal (index self))) with
    | Raise e => Raise e
    | Ok pairs => search_loop self top_k filter_filenames pairs []
    end.

(** [list(set(...))]: the order of the list is not determined, so the
    set is returned. *)
Definition get_all_filenames (self : FAISSVectorStore) : gset string :=
  list_to_set (md_filename <$> metadata self).

(** [enumerate(l)] *)
Definition enumerate {A} (l : list A) : list (nat * A) := imap pair l.

Definition delete_by_filename (self : FAISSVectorStore) (filename : string)
    : FAISSVectorStore :=
  let indices_to_keep :=
    fst <$> filter (fun im => md_filename (snd im) <> filename)
                   (enumerate (metadata self)) in
  if len indices_to_keep =? len (metadata self) then self
  else
    let new_metadata := omap (fun i => metadata self !! i) indices_to_keep in
    let self := {| embedding_dim := embedding_dim self;
                   index := index self;
                   metadata := new_metadata;
                   index_file := index_file self;
                   metadata_file := metadata_file self |} in
    let self := _create_new_index self in
    save self.

Definition clear (self : FAISSVectorStore) : FAISSVectorStore :=
  save (_create_new_index self).

(** Calls made on a store, and the state they leave behind. *)
Inductive op :=
| AddVectors (embeddings : ndarray) (metadata_list : list Chunk)
| DeleteByFilename (filename : string)
| Clear.

Definition run_op (self : FAISSVectorStore) (o : op) : FAISSVectorStore :=
  match o with
  | AddVectors embeddings metadata_list =>
      snd (add_vectors self embeddings metadata_list)
  | DeleteByFilename filename => delete_by_filename self filename
  | Clear => clear self
  end.

Definition run_ops (self : FAISSVectorStore) (ops : list op) : FAISSVectorStore :=
  foldl run_op self ops.

(** The store that [__init__] makes in an empty directory. *)
Definition new_store (embedding_dim : Z) : FAISSVectorStore :=
  {| embedding_dim := embedding_dim;
     index := {| d := embedding_dim; xb := [] |}; metadata := [];
     index_file := None; metadata_file := None |}.

(** [v] and [md] were handed to the store together: at the same
    position of the two arguments of one [add_vectors] call. *)
Definition added_together (history : list op) (v : vector) (md : Chunk) : Prop :=
  exists embeddings metadata_list (j : nat) v0,
    AddVectors embeddings metadata_list ∈ history /\
    shape0 embeddings = len metadata_list /\
    nd_rows embeddings !! j = Some v0 /\
    v = astype_float32 v0 /\
    metadata_list !! j = Some md.

Definition store_invariant (history : list op) (self : FAISSVectorStore) : Prop :=
  ntotal (index self) = len (metadata self) /\
  forall (i : nat) v md,
    xb (index self) !! i = Some v ->
    metadata self !! i = Some md ->
    added_together history v md.

End WithBackend.
End VectorStore.

(** ** rag_pipeline.py *)

Module Pipeline.
Import VectorStore.
Section WithBackend.
Context `{Backend}.

(** The JSON body posted to the generation service. *)
Record Payload := mkPayload {
  p_model : string;
  p_prompt : string;
  p_system : string;
  p_stream : bool;
  p_temperature : Q;
  p_top_p : Q
}.

(** What [requests.post(endpoint, json=payload, timeout=60)] gives, as
    far as [_generate_answer] reads it:
    - [Response]: a response whose body is a JSON object, with its
      ['response'] entry, a string, when there is one;
    - [MalformedResponse]: a response whose body is JSON of another shape
      (not an object, or an object whose ['response'] is [null] or not a
      string), on which [result.get('response', '').strip()] raises
      [AttributeError];
    - [UndecodableResponse]: a response whose body is not JSON, on which
      [response.json()] raises [requests.exceptions.JSONDecodeError], a
      [RequestException] (requests 2.27 and later);
    - [RequestException]: no response (connection failure, timeout). *)
Inductive http_outcome :=
| Response (status_code : Z) (response : option string)
| MalformedResponse (status_code : Z)
| UndecodableResponse (status_code : Z)
| RequestException.

Variable requests_post : string -> Payload -> http_outcome.

Record RAGPipeline := mkPipeline {
  vector_store : FAISSVectorStore;
  llm_endpoint : string
}.

Record QueryResult := mkQueryResult {
  answer : string;
  sources : list Hit
}.

Definition SYSTEM_PROMPT : string :=
  "You are a helpful assistant that answers questions based on the provided context." +:+ nl +:+
  "Use ONLY the information from the context to answer the question." +:+ nl +:+
  "If the context doesn't contain enough information to answer the question, say so clearly." +:+ nl +:+
  "Be concise but thorough.".

(** [PROMPT_TEMPLATE.format(context=..., question=...)] *)
Definition PROMPT_TEMPLATE_format (context question : string) : string :=
  "Context information from documents:" +:+ nl +:+
  "---" +:+ nl +:+
  context +:+ nl +:+
  "---" +:+ nl +:+
  nl +:+
  "Question: " +:+ question +:+ nl +:+
  nl +:+
  "Answer based on the context above:".

Definition _format_context (chunks : list Hit) : string :=
  let context_parts :=
    imap (fun i chunk =>
            "[Source " +:+ str_of_Z (Z.of_nat i + 1) +:+ ": " +:+ r_filename chunk +:+
            ", chunk " +:+ str_of_Z (r_chunk_index chunk) +:+ "]" +:+ nl +:+
            r_text chunk +:+ nl) chunks in
  join nl context_parts.

Definition _fallback_answer (prompt : string) : string :=
  "LLM service unavailable. Showing the retrieved context instead:" +:+ nl +:+ nl +:+
  prompt +:+ nl +:+ nl +:+
  "Start Ollama with `ollama serve` and ensure the `llama3.2` model is installed.".

(** The answer or the exception that escapes the [try], and the
    requests that were sent. *)
Definition _generate_answer (self : RAGPipeline) (prompt model : string)
    : result string * list Payload :=
  let payload :=
    {| p_model := model; p_prompt := prompt; p_system := SYSTEM_PROMPT;
       p_stream := false; p_temperature := (7 # 10)%Q; p_top_p := (9 # 10)%Q |} in
  match requests_post (llm_endpoint self) payload with
  | Response status_code result =>
      if status_code =? 200
      then (Ok (strip (default "" result)), [payload])
      else (Ok (_fallback_answer prompt), [payload])
  | MalformedResponse status_code =>
      if status_code =? 200
      then (Raise AttributeError, [payload])
      else (Ok (_fallback_answer prompt), [payload])
  | UndecodableResponse status_code =>
      if status_code =? 200
      then (Ok (_fallback_answer prompt), [payload])
      else (Ok (_fallback_answer prompt), [payload])
  | RequestException => (Ok (_fallback_answer prompt), [payload])
  end.

Definition query (self : RAGPipeline) (question : string) (top_k : Z)
    (active_files : option (list string)) : result QueryResult * list Payload :=
  let query_embedding := embed_query question in
  match search (vector_store self) query_embedding top_k active_files with
  | Raise e => (Raise e, [])
  | Ok retrieved_chunks =>
      if bool_decide (retrieved_chunks = []) then
        (Ok {| answer := "No relevant information found in the indexed documents.";
               sources := [] |}, [])
      else
        let context_str := _format_context retrieved_chunks in
        let prompt := PROMPT_TEMPLATE_format context_str question in
        match _generate_answer self prompt "llama3.2" with
        | (Raise e, sent) => (Raise e, sent)
        | (Ok answer, sent) =>
            (Ok {| answer := answer; sources := retrieved_chunks |}, sent)
        end
  end.

End WithBackend.
End Pipeline.

(** ** file_processor.py and upload.py *)

(** What the endpoint uses from the platform: [pathlib], the file system,
    the text extractors and the embedding model. *)
Class Platform `{Backend} := {
  (** [Path(p).suffix] *)
  path_suffix : string -> string;
  (** [uploads_dir / name], as a string *)
  path_join : string -> string -> string;
  (** whether [open(path, "wb")] and the copy succeed *)
  can_write : string -> bool;
  (** the readers of [FileProcessor], from the bytes of the file *)
  _extract_pdf : list Byte.byte -> result string;
  _extract_txt : list Byte.byte -> result string;
  _extract_markdown : list Byte.byte -> result string;
  _extract_docx : list Byte.byte -> result string;
  DOCX_AVAILABLE : bool;
  (** [LocalEmbedder.embed_text] on a list of strings *)
  embed_text : list string -> result VectorStore.ndarray
}.

Module Upload.
Import VectorStore.
Section WithPlatform.
Context `{Platform}.

(** [str.lower] on ASCII text *)
Definition lower_ascii (a : ascii) : ascii :=
  let n := N_of_ascii a in
  if ((65 <=? n) && (n <=? 90))%N then ascii_of_N (n + 32) else a.

Fixpoint lower (s : string) : string :=
  match s with
  | EmptyString => EmptyString
  | String a s' => String (lower_ascii a) (lower s')
  end.

(** [s.lstrip('.')] *)
Fixpoint lstrip_dot (s : string) : string :=
  match s with
  | EmptyString => EmptyString
  | String a s' => if Ascii.eqb a "." then lstrip_dot s' else s
  end.

Definition str_exn (e : exn) : string :=
  match e with
  | ValueError msg => msg
  | HTTPException _ detail => detail
  | _ => ""
  end.

(** The process and what it keeps on disk: the store with its two
    files, and the files of the machine by path. *)
Record App := mkApp {
  vector_store : FAISSVectorStore;
  chunker : TextChunker;
  uploads_dir : string;
  files : gmap string (list Byte.byte)
}.

Record UploadFile := mkUploadFile {
  uf_filename : string;
  uf_file : list Byte.byte
}.

Record UploadResponse := mkUploadResponse {
  ur_filename : string;
  ur_chunks_created : Z;
  ur_file_type : string
}.

(** [open(file_path, ...)] in a reader: the file must exist. *)
Definition read_with (fs : gmap string (list Byte.byte)) (file_path : string)
    (reader : list Byte.byte -> result string) : result string :=
  match fs !! file_path with
  | None => Raise OSError
  | Some content => reader content
  end.

(** [FileProcessor.extract_text] *)
Definition extract_text (fs : gmap string (list Byte.byte)) (file_path : string)
    : result string :=
  let extension := lower (path_suffix file_path) in
  if bool_decide (extension = ".pdf") then read_with fs file_path _extract_pdf
  else if bool_decide (extension = ".txt") then read_with fs file_path _extract_txt
  else if bool_decide (extension ∈ [".md"; ".markdown"])
  then read_with fs file_path _extract_markdown
  else if bool_decide (extension = ".docx") then
    (if negb DOCX_AVAILABLE
     then Raise (ValueError "DOCX support requires python-docx library")
     else read_with fs file_path _extract_docx)
  else Raise (ValueError ("Unsupported file format: " +:+ extension)).

(** The members of the set literal, in one of its orders. *)
Definition allowed_extensions : list string :=
  [".pdf"; ".txt"; ".md"; ".markdown"; ".docx"].

Definition set_files (app : App) (fs : gmap string (list Byte.byte)) : App :=
  {| vector_store := vector_store app; chunker := chunker app;
     uploads_dir := uploads_dir app; files := fs |}.

Definition set_vector_store (app : App) (vs : FAISSVectorStore) : App :=
  {| vector_store := vs; chunker := chunker app;
     uploads_dir := uploads_dir app; files := files app |}.

(** [upload_file]; [None] when the chunker runs out of fuel. *)
Definition upload_file (app : App) (file : UploadFile) (fuel : nat)
    : option (result UploadResponse * App) :=
  let file_path := uf_filename file in
  if bool_decide (lower (path_suffix file_path) ∉ allowed_extensions) then
    Some (Raise (HTTPException 400
                   ("Unsupported file type. Allowed: " +:+ join ", " allowed_extensions)),
          app)
  else
    let save_path := path_join (uploads_dir app) (uf_filename file) in
    if negb (can_write save_path) then
      Some (Raise (HTTPException 500 ("Failed to save file: " +:+ str_exn OSError)), app)
    else
      let app := set_files app (<[save_path := uf_file file]> (files app)) in
      match extract_text (files app) save_path with
      | Raise e =>
          Some (Raise (HTTPException 500 ("Failed to extract text: " +:+ str_exn e)), app)
      | Ok text =>
          if is_empty (strip text) then
            Some (Raise (HTTPException 400 "No text content found in file"), app)
          else
            let file_type := lstrip_dot (path_suffix file_path) in
            match chunk_text (chunker app) text (uf_filename file) file_type fuel with
            | None => None
            | Some chunks =>
                let chunk_texts := md_text <$> chunks in
                match embed_text chunk_texts with
                | Raise e =>
                    Some (Raise (HTTPException 500
                                   ("Failed to embed text: " +:+ str_exn e)), app)
                | Ok embeddings =>
                    match add_vectors (vector_store app) embeddings chunks with
                    | (Raise e, vs) =>
                        Some (Raise (HTTPException 500
                                       ("Failed to store vectors: " +:+ str_exn e)),
                              set_vector_store app vs)
                    | (Ok _, vs) =>
                        Some (Ok {| ur_filename := uf_filename file;
                                    ur_chunks_created := len chunks;
                                    ur_file_type := file_type |},
                              set_vector_store app vs)
                    end
                end
            end
      end.

End WithPlatform.
End Upload.

(** ** query.py and the status endpoint of main.py *)

Module QueryApi.
Import VectorStore Pipeline.
Section WithBackend.
Context `{Backend}.
Variable requests_post : string -> Payload -> http_outcome.

Record QueryRequest := mkQueryRequest {
  q_question : string;
  q_active_files : option (list string);
  q_top_k : Z
}.



Record FileInfo := mkFileInfo {
  fi_filename : string;
  fi_file_type : string;
  fi_num_chunks : Z
}.



(** The entry that [list_files] builds for one filename. *)
Definition file_info (vector_store : FAISSVectorStore) (filename : string) : FileInfo :=
  let num_chunks :=
    len (filter (fun meta => md_filename meta = filename) (metadata vector_store)) in
  let file_type :=
    default "unknown"
      (md_file_type <$>
         head (filter (fun meta => md_filename meta = filename) (metadata vector_store))) in
  {| fi_filename := filename; fi_file_type := file_type; fi_num_chunks := num_chunks |}.

(** [list_files], the filenames taken in the order in which the set
    enumerates them. Nothing in its body raises. *)
Definition list_files (vector_store : FAISSVectorStore) : list FileInfo :=
  file_info vector_store <$> elements (get_all_filenames vector_store).

(** The counts reported by [root] and [health] in main.py. *)
Record Counts := mkCounts {
  indexed_files : Z;
  total_vectors : Z
}.

Definition root (vector_store : FAISSVectorStore) : Counts :=
  {| indexed_files := len (elements (get_all_filenames vector_store));
     total_vectors := ntotal (index vector_store) |}.

End WithBackend.
End QueryApi.

(** ** Stand-ins for the collaborators

    Small executable instances on which the definitions above can be run:
    one-dimensional integer vectors, an exact search by squared distance,
    and a file system that accepts every write. *)

Module Demo.
Import VectorStore Pipeline Upload.

Definition nearest (xb : list Z) (q : Z) : list (Z * Z) :=
  merge_sort (fun a b => fst a <= fst b) (H := fun a b => decide (fst a <= fst b))
    (imap (fun i v => ((v - q) * (v - q), Z.of_nat i)) xb).

#[export] Instance backend : Backend := {|
  vector := Z;
  distance := Z;
  similarity := Q;
  astype_float32 := fun v => v;
  faiss_search := fun _ xb q k =>
    if k <=? 0 then Raise AssertionError
    else Ok (take (Z.to_nat k) (nearest xb q));
  score_of_distance := fun dist => (1 - inject_Z dist / 2)%Q;
  embed_query := fun question => Z.of_nat (String.length question)
|}.

(** The part of a string from its last dot on. *)
Fixpoint from_last_dot (s : string) : option string :=
  match s with
  | EmptyString => None
  | String a s' =>
      match from_last_dot s' with
      | Some r => Some r
      | None => if Ascii.eqb a "." then Some s else None
      end
  end.

Fixpoint has_slash (s : string) : bool :=
  match s with
  | EmptyString => false
  | String a s' => Ascii.eqb a "/" || has_slash s'
  end.

(** The last component of a path. *)
Fixpoint name_of (path : string) : string :=
  match path with
  | EmptyString => ""
  | String _ s' => if has_slash path then name_of s' else path
  end.

(** The suffix of a path: the part of its last component from the last
    dot on, when that dot is neither the first nor the last character. *)
Definition suffix (path : string) : string :=
  match name_of path with
  | EmptyString => ""
  | String a s' =>
      match from_last_dot s' with
      | Some (String _ (String _ _) as r) => r
      | _ => ""
      end
  end.

#[export] Instance platform : Platform := {|
  path_suffix := suffix;
  path_join := fun dir name => dir +:+ "/" +:+ name;
  can_write := fun _ => true;
  _extract_pdf := fun _ => Raise (ValueError "not a PDF file");
  _extract_txt := fun content => Ok (string_of_list_byte content);
  _extract_markdown := fun content => Ok (string_of_list_byte content);
  _extract_docx := fun _ => Raise (ValueError "not a DOCX file");
  DOCX_AVAILABLE := false;
  embed_text := fun texts =>
    Ok {| nd_rows := (fun t => Z.of_nat (String.length t)) <$> texts; nd_dim := 1 |}
|}.

Definition chunk_a : Chunk :=
  {| md_text := "alpha"; md_filename := "a.txt"; md_file_type := "txt";
     md_chunk_index := 0; md_total_chunks := Some 1 |}.

Definition chunk_b : Chunk :=
  {| md_text := "beta beta"; md_filename := "b.txt"; md_file_type := "txt";
     md_chunk_index := 0; md_total_chunks := Some 1 |}.

(** A store of dimension 1 after [add_vectors] of the two chunks. *)
Definition two_files : FAISSVectorStore :=
  snd (add_vectors (new_store 1) {| nd_rows := [5; 9]; nd_dim := 1 |}
         [chunk_a; chunk_b]).

Definition two_rows : ndarray := {| nd_rows := [1; 2]; nd_dim := 1 |}.

Definition endpoint : string := "http://localhost:11434/api/generate".

(** A service that is down, and one that answers 503. *)
Definition no_connection : string -> Payload -> http_outcome :=
  fun _ _ => RequestException.

Definition unavailable : string -> Payload -> http_outcome :=
  fun _ _ => Response 503 None.




Definition blank : QueryApi.QueryRequest :=
  {| QueryApi.q_question := "   "; QueryApi.q_active_files := None;
     QueryApi.q_top_k := 5 |}.

Definition pipeline : RAGPipeline :=
  {| Pipeline.vector_store := two_files; llm_endpoint := endpoint |}.

Definition empty_pipeline : RAGPipeline :=
  {| Pipeline.vector_store := new_store 1; llm_endpoint := endpoint |}.

Definition question_embedding : Z := embed_query "what?".

Definition app0 : App :=
  {| Upload.vector_store := two_files;
     chunker := TextChunker_init 500 100;
     uploads_dir := "uploads";
     files := ∅ |}.

Definition empty_upload : UploadFile :=
  {| uf_filename := "empty.txt"; uf_file := [] |}.



Definition exe_upload : UploadFile :=
  {| uf_filename := "tool.exe"; uf_file := [] |}.

End Demo.


(** ** Predicates used in the statements *)

Fixpoint no_space (s : string) : bool :=
  match s with
  | EmptyString => true
  | String a s' => negb (isspace a) && no_space s'
  end.

(** A word: not empty and free of white space. *)
Definition is_word (w : string) : Prop :=
  is_empty w = false /\ no_space w = true.

(** The words of a chunk, read back from its text. *)
Definition chunk_words (c : Chunk) : list string := split (md_text c).

(** The list of chunks that the loop of [chunk_text] appends when it is
    entered with [chunk_index = i] and [start_idx = s]: a last window, a
    window followed by the rest, or nothing when the loop condition
    fails. *)
Inductive windows_at (self : TextChunker) (words : list string)
    (filename file_type : string) : Z -> Z -> list Chunk -> Prop :=
| windows_stop i s :
    len words <= s ->
    windows_at self words filename file_type i s []
| windows_last i s :
    s < len words ->
    len words <= s + words_per_chunk self ->
    windows_at self words filename file_type i s
      [window self words filename file_type i s]
| windows_next i s rest :
    s < len words ->
    s + words_per_chunk self < len words ->
    windows_at self words filename file_type (i + 1)
      (s + (words_per_chunk self - words_overlap self)) rest ->
    windows_at self words filename file_type i s
      (window self words filename file_type i s :: rest).

(** What the specification says of the chunks of a text with more than
    [words_per_chunk] words. *)
Definition sliding_windows (self : TextChunker) (words : list string)
    (chunks : list Chunk) : Prop :=
  let wpc := words_per_chunk self in
  let wo := words_overlap self in
  let step := wpc - wo in
  let W : list (list string) := chunk_words <$> chunks in
  (* windows at offsets 0, step, 2*step, ..., numbered from 0 *)
  (forall (k : nat) c, chunks !! k = Some c ->
     chunk_words c = py_slice words (Z.of_nat k * step) (Z.of_nat k * step + wpc) /\
     md_chunk_index c = Z.of_nat k) /\
  (* the last window is the first one whose end reaches the word count *)
  (forall k : nat, (k < length chunks)%nat ->
     (Z.of_nat k * step + wpc < len words <-> (S k < length chunks)%nat)) /\
  (* every chunk except the last has exactly wpc words *)
  (forall (k : nat) w, W !! k = Some w -> (S k < length W)%nat -> len w = wpc) /\
  (* consecutive chunks share exactly wo words at the boundary *)
  (forall (k : nat) w w', W !! k = Some w -> W !! S k = Some w' ->
     len (take (Z.to_nat wo) w') = wo /\
     drop (Z.to_nat step) w = take (Z.to_nat wo) w') /\
  (* the chunks, overlaps removed, give back the words in order *)
  (exists w0 rest, W = w0 :: rest /\
     w0 ++ concat (drop (Z.to_nat wo) <$> rest) = words) /\
  (* total_chunks is the number of windows *)
  (forall c, c ∈ chunks -> md_total_chunks c = Some (len chunks)).

(** The chunks carry the file's name and type and are numbered from 0. *)
Definition labelled (filename file_type : string) (chunks : list Chunk) : Prop :=
  forall (k : nat) c, chunks !! k = Some c ->
    md_filename c = filename /\ md_file_type c = file_type /\
    md_chunk_index c = Z.of_nat k.

Section StorePredicates.
Import VectorStore.
Context `{Backend}.

(** The result that [search] builds for a pair of a distance and a
    position returned by the index: the entry at that position of the
    metadata, with the score computed from that distance. *)
Definition answers_pair (self : FAISSVectorStore) (p : distance * Z) (h : Hit) : Prop :=
  exists md,
    snd p <> -1 /\
    py_getitem (metadata self) (snd p) = Some md /\
    h = {| r_text := md_text md; r_filename := md_filename md;
           r_file_type := md_file_type md; r_chunk_index := md_chunk_index md;
           r_score := score_of_distance (fst p) |}.

(** Starting the process again on the files of the store gives the store
    back. *)
Definition reloads (self : FAISSVectorStore) : Prop :=
  init (embedding_dim self) (index_file self) (metadata_file self) = Ok self.
End StorePredicates.

(** The chunks counted by a listing of files. *)
Definition listed_chunks (infos : list QueryApi.FileInfo) : Z :=
  foldr Z.add 0 (QueryApi.fi_num_chunks <$> infos).

Section PipelinePredicates.
Import Pipeline.
Context `{Backend}.

(** The request that [query] has [_generate_answer] send for a prompt. *)
Definition payload_for (prompt : string) : Payload :=
  {| p_model := "llama3.2"; p_prompt := prompt; p_system := SYSTEM_PROMPT;
     p_stream := false; p_temperature := (7 # 10)%Q; p_top_p := (9 # 10)%Q |}.

(** A failed call: a response outside 2xx, or no response at all. *)
Definition generation_failed (o : http_outcome) : Prop :=
  match o with
  | Response status_code _ => ~ (200 <= status_code <= 299)
  | MalformedResponse status_code => ~ (200 <= status_code <= 299)
  | UndecodableResponse status_code => ~ (200 <= status_code <= 299)
  | RequestException => True
  end.
End PipelinePredicates.

Section UploadPredicates.
Import VectorStore Upload.
Context `{Platform}.

(** Where [upload_file] writes the file. *)
Definition save_path_of (app : App) (file : UploadFile) : string :=
  path_join (uploads_dir app) (uf_filename file).

Definition extension_allowed (file : UploadFile) : Prop :=
  lower (path_suffix (uf_filename file)) ∈ allowed_extensions.

(** The file is written and read back, and the text extracted from it
    is empty once stripped. *)
Definition extracted_text_empty (app : App) (file : UploadFile) : Prop :=
  extension_allowed file /\
  can_write (save_path_of app file) = true /\
  exists text,
    extract_text (<[save_path_of app file := uf_file file]> (files app))
      (save_path_of app file) = Ok text /\
    is_empty (strip text) = true.
End UploadPredicates.

(** * Properties *)

(** ** Strings *)

Lemma str_app_cons (a : ascii) (s t : string) : String a s +:+ t = String a (s +:+ t).
Proof. done. Qed.

Lemma str_app_nil_r (s : string) : s +:+ "" = s.
Proof. induction s as [|a s IH]; [done|]. by rewrite str_app_cons, IH. Qed.

Lemma str_app_assoc (s t u : string) : (s +:+ t) +:+ u = s +:+ (t +:+ u).
Proof. induction s as [|a s IH]; [done|]. by rewrite !str_app_cons, IH. Qed.

Lemma is_empty_app (s t : string) : is_empty (s +:+ t) = is_empty s && is_empty t.
Proof. by destruct s. Qed.

Lemma no_space_app (s t : string) : no_space (s +:+ t) = no_space s && no_space t.
Proof.
  induction s as [|a s IH]; [done|].
  rewrite str_app_cons. cbn [no_space]. rewrite IH. by rewrite andb_assoc.
Qed.

Lemma split_go_word (u w s : string) :
  no_space u = true -> split_go w (u +:+ s) = split_go (w +:+ u) s.
Proof.
  revert w. induction u as [|a u IH]; intros w Hu.
  - by rewrite str_app_nil_r.
  - cbn [no_space] in Hu. apply andb_true_iff in Hu as [Ha Hu].
    rewrite str_app_cons. cbn [split_go].
    destruct (isspace a); [done|].
    rewrite IH by done. rewrite str_app_assoc. done.
Qed.

Lemma split_go_is_word (s w : string) :
  no_space w = true -> Forall is_word (split_go w s).
Proof.
  revert w. induction s as [|a s IH]; intros w Hw; cbn [split_go].
  - unfold emit. destruct (is_empty w) eqn:E; repeat constructor; done.
  - destruct (isspace a) eqn:Ea.
    + apply Forall_app. split; [|by apply IH].
      unfold emit. destruct (is_empty w) eqn:E; repeat constructor; done.
    + apply IH. rewrite no_space_app, Hw. cbn. by rewrite Ea.
Qed.

Lemma split_is_word (s : string) : Forall is_word (split s).
Proof. by apply split_go_is_word. Qed.

Lemma split_join (ws : list string) :
  Forall is_word ws -> split (join " " ws) = ws.
Proof.
  induction 1 as [|x r [Hne Hns] Hr IH]; [done|].
  unfold split in *. destruct r as [|y r].
  - cbn [join]. rewrite <- (str_app_nil_r x) at 1.
    rewrite split_go_word by done. change ("" +:+ x) with x.
    cbn [split_go]. unfold emit. by rewrite Hne.
  - change (join " " (x :: y :: r)) with (x +:+ String " " (join " " (y :: r))).
    rewrite split_go_word by done. change ("" +:+ x) with x.
    cbn [split_go]. change (isspace " ") with true. cbv iota.
    rewrite IH. unfold emit. by rewrite Hne.
Qed.

(** ** chunker.py: the loop *)

Section Loop.
Variable self : TextChunker.
Variable words : list string.
Variables filename file_type : string.

Let wpc := words_per_chunk self.
Let wo := words_overlap self.

(** With a step of at least one word the loop ends, and what it
    appends is described by [windows_at]. *)
Lemma chunk_loop_windows :
  wpc - wo >= 1 ->
  forall (n : nat) i s, (Z.to_nat (len words - s) <= n)%nat ->
  exists new,
    windows_at self words filename file_type i s new /\
    forall chunks fuel, (n < fuel)%nat ->
      chunk_loop self words filename file_type fuel chunks i s = Some (chunks ++ new).
Proof.
  intros Hstep. induction n as [|n IH]; intros i s Hn.
  - exists []. split; [apply windows_stop; lia|].
    intros chunks [|fuel] Hf; [lia|]. cbn [chunk_loop].
    destruct (Z.ltb_spec s (len words)); [lia|]. by rewrite app_nil_r.
  - destruct (Z.ltb_spec s (len words)) as [Hlt|Hge].
    + destruct (Z.leb_spec (len words) (s + wpc)) as [Hend|Hend].
      * exists [window self words filename file_type i s].
        split; [by apply windows_last|].
        intros chunks [|fuel] Hf; [lia|]. cbn [chunk_loop].
        destruct (Z.ltb_spec s (len words)); [|lia].
        rewrite Z.geb_leb. fold wpc.
        destruct (Z.leb_spec (len words) (s + wpc)); [done|lia].
      * destruct (IH (i + 1) (s + (wpc - wo))) as (new & Hw & Hrun); [lia|].
        exists (window self words filename file_type i s :: new).
        split; [by apply windows_next|].
        intros chunks [|fuel] Hf; [lia|]. cbn [chunk_loop].
        destruct (Z.ltb_spec s (len words)); [|lia].
        rewrite Z.geb_leb. fold wpc wo.
        destruct (Z.leb_spec (len words) (s + wpc)); [lia|].
        rewrite Hrun by lia. by rewrite <- app_assoc.
    + exists []. split; [apply windows_stop; lia|].
      intros chunks [|fuel] Hf; [lia|]. cbn [chunk_loop].
      destruct (Z.ltb_spec s (len words)); [lia|]. by rewrite app_nil_r.
Qed.

(** With a step of zero words a window that does not reach the end of
    the text is followed by the same window, for ever. *)
Lemma chunk_loop_stuck :
  wpc - wo = 0 ->
  forall s, s < len words -> s + wpc < len words ->
  forall fuel chunks i,
    chunk_loop self words filename file_type fuel chunks i s = None.
Proof.
  intros Hstep s Hs Hend. induction fuel as [|fuel IH]; intros chunks i; [done|].
  cbn [chunk_loop]. destruct (Z.ltb_spec s (len words)); [|lia].
  rewrite Z.geb_leb. fold wpc wo.
  destruct (Z.leb_spec (len words) (s + wpc)); [lia|].
  rewrite Hstep, Z.add_0_r. apply IH.
Qed.
End Loop.

(** C3 (as amended). [TextChunker.__init__] validates nothing; for every
    chunker whose window step [words_per_chunk - words_overlap] is at least
    1 and every input text, [chunk_text] terminates: from some amount of
    fuel on it returns one and the same list of chunks. *)
Theorem chunk_text_terminates (self : TextChunker) (text filename file_type : string) :
  words_per_chunk self - words_overlap self >= 1 ->
  exists fuel chunks, forall fuel', (fuel <= fuel')%nat ->
    chunk_text self text filename file_type fuel' = Some chunks.
Proof.
  intros Hstep. unfold chunk_text. cbv zeta.
  set (words := split (_clean_text text)).
  destruct (len words <=? words_per_chunk self) eqn:E.
  - exists 0%nat. eexists. intros fuel' _. reflexivity.
  - destruct (chunk_loop_windows self words filename file_type Hstep
                (Z.to_nat (len words - 0)) 0 0) as (new & _ & Hrun); [lia|].
    exists (S (Z.to_nat (len words - 0))). eexists. intros fuel' Hf.
    rewrite Hrun by lia. reflexivity.
Qed.

(** The step is 2 words for [chunk_size = 4] and [overlap = 2]. *)
Lemma chunk_text_terminates_witness :
  exists fuel chunks, forall fuel', (fuel <= fuel')%nat ->
    chunk_text (TextChunker_init 4 2) "a b c d e f g" "f.txt" "txt" fuel' = Some chunks.
Proof. apply chunk_text_terminates. vm_compute. discriminate. Defined.

(** C3 (as stated) fails: the constructor accepts [chunk_size = 4] with
    [overlap = 4], which gives a step of zero words, and [chunk_text] then
    never returns on a text of four words. *)
Lemma chunker_accepts_zero_step :
  ~ (overlap (TextChunker_init 4 4) < chunk_size (TextChunker_init 4 4)) /\
  ~ (words_per_chunk (TextChunker_init 4 4) - words_overlap (TextChunker_init 4 4) >= 1) /\
  forall fuel, chunk_text (TextChunker_init 4 4) "a b c d" "f.txt" "txt" fuel = None.
Proof.
  split; [cbn; lia|]. split; [vm_compute; auto|].
  intros fuel. unfold chunk_text. cbv zeta.
  replace (split (_clean_text "a b c d")) with ["a"; "b"; "c"; "d"]
    by (vm_compute; reflexivity).
  change (len ["a"; "b"; "c"; "d"] <=? words_per_chunk (TextChunker_init 4 4)) with false.
  cbv iota.
  rewrite chunk_loop_stuck; [done| | |]; vm_compute; done.
Qed.

(** An overlap below the chunk size does not give a positive step
    either: 5 and 4 tokens are both 3 words. *)
Example overlap_below_size_zero_step :
  overlap (TextChunker_init 5 4) < chunk_size (TextChunker_init 5 4) /\
  words_per_chunk (TextChunker_init 5 4) - words_overlap (TextChunker_init 5 4) = 0.
Proof. split; [cbn; lia|reflexivity]. Qed.

(** The sizes of the default configuration. *)
Example default_sizes :
  words_per_chunk (TextChunker_init 500 100) = 375 /\
  words_overlap (TextChunker_init 500 100) = 75.
Proof. split; reflexivity. Qed.

(** ** chunker.py: slices and windows *)

Lemma py_slice_nonneg {A} (l : list A) (a b : Z) :
  0 <= a -> 0 <= b ->
  py_slice l a b = take (Z.to_nat (b - a)) (drop (Z.to_nat a) l).
Proof.
  intros Ha Hb. unfold py_slice, py_slice_bound.
  destruct (Z.ltb_spec a 0); [lia|]. destruct (Z.ltb_spec b 0); [lia|].
  destruct (Z.le_gt_cases (len l) a) as [Hge|Hlt].
  - rewrite !drop_ge by lia. by rewrite !take_nil.
  - rewrite (Z.min_l a) by lia.
    destruct (Z.le_gt_cases b (len l)).
    + by rewrite Z.min_l by lia.
    + rewrite Z.min_r by lia.
      rewrite !take_ge; [done| |]; rewrite length_drop; lia.
Qed.

Lemma py_slice_is_word (ws : list string) (a b : Z) :
  Forall is_word ws -> Forall is_word (py_slice ws a b).
Proof. intros Hw. unfold py_slice. by apply Forall_take, Forall_drop. Qed.

Lemma chunk_words_set_total (total : Z) (c : Chunk) :
  chunk_words (set_total total c) = chunk_words c.
Proof. done. Qed.

Section Windows.
Variable self : TextChunker.
Variable words : list string.
Variables filename file_type : string.
Hypothesis words_ok : Forall is_word words.

Let wpc := words_per_chunk self.
Let wo := words_overlap self.
Let step := wpc - wo.
Let N := len words.

Lemma chunk_words_window (i s : Z) :
  chunk_words (window self words filename file_type i s) = py_slice words s (s + wpc).
Proof. unfold chunk_words, window. cbn. by apply split_join, py_slice_is_word. Qed.

(** The k-th chunk of a run is the window at offset [s + k * step]. *)
Lemma windows_at_lookup (i s : Z) (new : list Chunk) :
  windows_at self words filename file_type i s new ->
  forall (k : nat) c, new !! k = Some c ->
    c = window self words filename file_type (i + Z.of_nat k) (s + Z.of_nat k * step).
Proof.
  induction 1 as [i s _|i s _ _|i s rest _ _ _ IH]; intros k c Hk.
  - done.
  - destruct k; [|done]. injection Hk as <-. f_equal; lia.
  - destruct k as [|k].
    + injection Hk as <-. f_equal; lia.
    + rewrite (IH k c Hk). fold wpc wo step. f_equal; lia.
Qed.

(** With a non-negative overlap the loop is always left through its
    [break]: the last window is the first whose end reaches [N]. *)
Lemma windows_at_count (i s : Z) (new : list Chunk) :
  windows_at self words filename file_type i s new ->
  0 <= wo -> s < N ->
  new <> [] /\
  forall k : nat, (k < length new)%nat ->
    (s + Z.of_nat k * step + wpc < N <-> (S k < length new)%nat).
Proof.
  intros Hw Hwo. induction Hw as [i s Hstop|i s _ Hend|i s rest _ Hend _ IH]; intros Hs.
  - subst N. lia.
  - split; [done|]. intros k Hk. cbn in Hk. assert (k = 0%nat) as -> by lia.
    cbn. subst N wpc. lia.
  - fold wpc wo in IH, Hend. destruct IH as [Hne IH]; [subst N; lia|].
    split; [done|]. intros [|k] Hk; cbn [length] in *.
    + destruct rest; [done|]. cbn [length]. subst N. lia.
    + specialize (IH k ltac:(lia)). subst step.
      replace (s + Z.of_nat (S k) * (wpc - wo) + wpc)
        with (s + (wpc - wo) + Z.of_nat k * (wpc - wo) + wpc) by lia.
      rewrite IH. lia.
Qed.

(** Dropping the overlap from each chunk of a run leaves the words from
    [s + wo] on. *)
Lemma windows_at_concat (i s : Z) (new : list Chunk) :
  windows_at self words filename file_type i s new ->
  0 <= wo < wpc -> 0 <= s < N -> s + wo <= N ->
  concat ((fun c => drop (Z.to_nat wo) (chunk_words c)) <$> new)
  = drop (Z.to_nat (s + wo)) words.
Proof.
  intros Hw Hwo.
  induction Hw as [i s Hstop|i s _ Hend|i s rest _ Hend _ IH]; intros Hs Hso.
  - subst N. lia.
  - cbn [fmap list_fmap concat]. rewrite app_nil_r, chunk_words_window.
    rewrite py_slice_nonneg by lia. fold wpc in Hend.
    rewrite take_ge by (rewrite length_drop; subst N; lia).
    rewrite drop_drop. f_equal. lia.
  - cbn [fmap list_fmap concat]. fold wpc wo in IH, Hend.
    change (list_fmap _ _ ?f rest) with (f <$> rest).
    rewrite IH by (subst N; lia).
    rewrite chunk_words_window, py_slice_nonneg by lia.
    replace (Z.to_nat (s + wpc - s)) with (Z.to_nat wo + Z.to_nat (wpc - wo))%nat by lia.
    rewrite <- take_drop_commute, drop_drop.
    replace (Z.to_nat (s + (wpc - wo) + wo))
      with (Z.to_nat s + Z.to_nat wo + Z.to_nat (wpc - wo))%nat by lia.
    rewrite <- (drop_drop words (Z.to_nat (wpc - wo)) (Z.to_nat s + Z.to_nat wo)).
    rewrite take_drop. f_equal. lia.
Qed.
End Windows.

Section SlidingWindows.
Variable self : TextChunker.
Variable words : list string.
Variables filename file_type : string.
Hypothesis words_ok : Forall is_word words.

Let wpc := words_per_chunk self.
Let wo := words_overlap self.
Let step := wpc - wo.

Hypothesis step_pos : wpc - wo >= 1.
Hypothesis overlap_nonneg : 0 <= wo.
Hypothesis long_text : len words > wpc.

Variable new : list Chunk.
Hypothesis run : windows_at self words filename file_type 0 0 new.

Let chunks := set_total (len new) <$> new.

Lemma chunks_lookup (k : nat) (c : Chunk) :
  chunks !! k = Some c ->
  (k < length new)%nat /\
  chunk_words c = py_slice words (Z.of_nat k * step) (Z.of_nat k * step + wpc) /\
  md_chunk_index c = Z.of_nat k.
Proof.
  unfold chunks. rewrite list_lookup_fmap. intros Hk.
  destruct (new !! k) as [c0|] eqn:E; [|done]. injection Hk as <-.
  split; [by eapply lookup_lt_Some|].
  rewrite (windows_at_lookup _ _ _ _ _ _ _ run k c0 E).
  rewrite chunk_words_set_total, chunk_words_window by done.
  rewrite !Z.add_0_l. done.
Qed.

Lemma chunks_count (k : nat) :
  (k < length new)%nat ->
  (Z.of_nat k * step + wpc < len words <-> (S k < length new)%nat).
Proof.
  intros Hk.
  destruct (windows_at_count _ _ _ _ _ _ _ run overlap_nonneg) as [_ Hc].
  { fold wpc in long_text. lia. }
  specialize (Hc k Hk). by rewrite Z.add_0_l in Hc.
Qed.

Lemma words_lookup (k : nat) (w : list string) :
  (chunk_words <$> chunks) !! k = Some w ->
  (k < length new)%nat /\
  w = take (Z.to_nat wpc) (drop (Z.to_nat (Z.of_nat k * step)) words).
Proof.
  rewrite list_lookup_fmap. intros Hk.
  destruct (chunks !! k) as [c|] eqn:E; [|done]. injection Hk as <-.
  destruct (chunks_lookup k c E) as (Hlt & -> & _). split; [done|].
  assert (0 <= Z.of_nat k * step) by (subst step; nia).
  rewrite py_slice_nonneg by lia. do 2 f_equal. lia.
Qed.

Lemma chunks_sliding_windows : sliding_windows self words chunks.
Proof.
  assert (Hlen : length chunks = length new) by (unfold chunks; by rewrite length_fmap).
  unfold sliding_windows. cbv zeta. fold wpc wo step.
  split; [|split; [|split; [|split; [|split]]]].
  - intros k c Hk. by destruct (chunks_lookup k c Hk) as (_ & ? & ?).
  - intros k Hk. rewrite Hlen in *. by apply chunks_count.
  - intros k w Hk Hlt. rewrite length_fmap, Hlen in Hlt.
    destruct (words_lookup k w Hk) as [Hk' ->].
    apply (proj2 (chunks_count k Hk')) in Hlt.
    assert (0 <= Z.of_nat k * step) by (subst step; nia).
    rewrite length_take, length_drop. lia.
  - intros k w w' Hk Hk'.
    destruct (words_lookup k w Hk) as [Hlt ->].
    destruct (words_lookup (S k) w' Hk') as [Hlt' ->].
    apply (proj2 (chunks_count k Hlt)) in Hlt'.
    assert (0 <= Z.of_nat k * step) by (subst step; nia).
    assert (Z.of_nat (S k) * step = Z.of_nat k * step + step) as -> by lia.
    rewrite take_take, length_take, length_drop.
    split; [subst step; lia|].
    replace (Z.to_nat wo `min` Z.to_nat wpc)%nat with (Z.to_nat wo) by (subst step; lia).
    replace (Z.to_nat wpc) with (Z.to_nat step + Z.to_nat wo)%nat by (subst step; lia).
    rewrite <- take_drop_commute, drop_drop. do 2 f_equal. lia.
  - subst step wo wpc.
    inversion run as [? ? Hstop|? ? _ Hend|? ? rest _ Hend Hrest]; subst; [lia|lia|].
    exists (chunk_words (window self words filename file_type 0 0)),
           (chunk_words <$> (set_total (len (window self words filename file_type 0 0 :: rest)) <$> rest)).
    split; [done|].
    rewrite <- !list_fmap_compose.
    change (chunk_words (window self words filename file_type 0 0) ++
            concat ((fun c => drop (Z.to_nat (words_overlap self)) (chunk_words c)) <$> rest)
            = words).
    rewrite (windows_at_concat _ _ _ _ words_ok _ _ _ Hrest) by lia.
    rewrite chunk_words_window, py_slice_nonneg by (done || lia).
    rewrite drop_0.
    replace (Z.to_nat (0 + (words_per_chunk self - words_overlap self) + words_overlap self))
      with (Z.to_nat (0 + words_per_chunk self - 0)) by lia.
    apply take_drop.
  - intros c Hc. unfold chunks in Hc. apply list_elem_of_fmap in Hc as (c0 & -> & _).
    cbn. by rewrite Hlen.
Qed.
End SlidingWindows.

(** C4. For every chunker whose overlap is a number of words,
    [words_overlap >= 0], with [words_per_chunk - words_overlap >= 1], and
    every text with more than [words_per_chunk] words, [chunk_text]
    returns, and its chunks are the
    windows at offsets 0, step, 2*step, ...: every chunk except the last
    has exactly [words_per_chunk] words, consecutive chunks share exactly
    [words_overlap] words at the boundary, the chunks give back the words
    of the text in order, and [total_chunks] of every chunk is the number
    of windows. *)
Theorem chunk_text_sliding_windows (self : TextChunker)
    (text filename file_type : string) :
  words_per_chunk self - words_overlap self >= 1 ->
  0 <= words_overlap self ->
  len (split (_clean_text text)) > words_per_chunk self ->
  exists fuel chunks,
    (forall fuel', (fuel <= fuel')%nat ->
       chunk_text self text filename file_type fuel' = Some chunks) /\
    sliding_windows self (split (_clean_text text)) chunks.
Proof.
  intros Hstep Hwo Hlong.
  set (words := split (_clean_text text)) in *.
  destruct (chunk_loop_windows self words filename file_type Hstep
              (Z.to_nat (len words - 0)) 0 0) as (new & Hw & Hrun); [lia|].
  exists (S (Z.to_nat (len words - 0))), (set_total (len new) <$> new). split.
  - intros fuel' Hf. unfold chunk_text. cbv zeta. fold words.
    destruct (Z.leb_spec (len words) (words_per_chunk self)); [lia|].
    by rewrite Hrun by lia.
  - apply (chunks_sliding_windows self words filename file_type); try done.
    apply split_is_word.
Qed.

(** Seven words in windows of three words with one word shared. *)
Lemma chunk_text_sliding_windows_witness :
  exists fuel chunks,
    (forall fuel', (fuel <= fuel')%nat ->
       chunk_text (TextChunker_init 4 2) "a b c d e f g" "f.txt" "txt" fuel' = Some chunks) /\
    sliding_windows (TextChunker_init 4 2) (split (_clean_text "a b c d e f g")) chunks.
Proof.
  apply chunk_text_sliding_windows; vm_compute; (discriminate || reflexivity).
Defined.

(** Outside that domain the windows no longer cover the text: the
    constructor also accepts a negative overlap, and with [chunk_size = 2]
    and [overlap = -2] the windows are one word wide and two words apart,
    so the chunks of "a b c" are "a" and "c". *)
Lemma negative_overlap_leaves_gaps :
  words_per_chunk (TextChunker_init 2 (-2)) - words_overlap (TextChunker_init 2 (-2)) >= 1 /\
  len (split (_clean_text "a b c")) > words_per_chunk (TextChunker_init 2 (-2)) /\
  exists chunks,
    (forall fuel, (2 <= fuel)%nat ->
       chunk_text (TextChunker_init 2 (-2)) "a b c" "f.txt" "txt" fuel = Some chunks) /\
    (md_text <$> chunks) = ["a"; "c"] /\
    ~ sliding_windows (TextChunker_init 2 (-2)) (split (_clean_text "a b c")) chunks.
Proof.
  split; [vm_compute; discriminate|]. split; [vm_compute; reflexivity|].
  eexists. split; [|split].
  - intros [|[|fuel]] Hf; [lia|lia|]. vm_compute. reflexivity.
  - reflexivity.
  - intros (_ & _ & _ & _ & (w0 & rest & HW & Hcat) & _).
    vm_compute in HW. injection HW as <- <-. vm_compute in Hcat. discriminate.
Qed.

(** ** vector_store.py *)

Section StoreProperties.
Import VectorStore.
Context `{Backend}.

(** [__init__] in an empty directory gives [new_store]. *)
Lemma init_empty_directory (embedding_dim : Z) :
  init embedding_dim None None = Ok (new_store embedding_dim).
Proof. done. Qed.

Lemma kept_length (filename : string) (l : list Chunk) (g : nat -> nat) :
  length (fst <$> filter (fun im : nat * Chunk => md_filename (snd im) <> filename)
                    (imap (fun i md => (g i, md)) l))
  = length (filter (fun md => md_filename md <> filename) l).
Proof.
  revert g. induction l as [|md l IH]; intros g; [done|].
  cbn [imap]. rewrite !filter_cons. cbn [snd].
  destruct (decide (md_filename md <> filename)); cbn [fmap list_fmap length];
    [f_equal|]; apply (IH (g ∘ S)).
Qed.

Lemma kept_length_enumerate (filename : string) (l : list Chunk) :
  length (fst <$> filter (fun im : nat * Chunk => md_filename (snd im) <> filename)
                    (enumerate l))
  = length (filter (fun md => md_filename md <> filename) l).
Proof. apply (kept_length filename l id). Qed.

Lemma filter_length_all {A} (P : A -> Prop) `{!forall x, Decision (P x)} (l : list A) :
  (length (filter P l) <= length l)%nat /\
  (length (filter P l) = length l <-> Forall P l).
Proof.
  induction l as [|x l [IHle IH]]; [by repeat split|].
  rewrite filter_cons. destruct (decide (P x)) as [Hx|Hx]; cbn [length].
  - split; [lia|]. rewrite Forall_cons. split.
    + intros Hl. split; [done|]. apply IH. lia.
    + intros [_ Hl]. f_equal. by apply IH.
  - split; [lia|]. rewrite Forall_cons. split; [lia|]. by intros [? _].
Qed.

(** A filename carried by no entry: nothing is kept out, and the
    method returns at once. *)
Lemma delete_absent (self : FAISSVectorStore) (filename : string) :
  Forall (fun md => md_filename md <> filename) (metadata self) ->
  delete_by_filename self filename = self.
Proof.
  intros Hall. unfold delete_by_filename. cbv zeta.
  rewrite kept_length_enumerate.
  apply (filter_length_all _ (metadata self)) in Hall. rewrite Hall.
  by rewrite Z.eqb_refl.
Qed.

(** A filename carried by some entry: the store is left empty, on disk
    too, whatever else it held. *)
Lemma delete_present (self : FAISSVectorStore) (filename : string) :
  ~ Forall (fun md => md_filename md <> filename) (metadata self) ->
  delete_by_filename self filename =
    {| embedding_dim := embedding_dim self;
       index := {| d := embedding_dim self; xb := [] |};
       metadata := [];
       index_file := Some {| d := embedding_dim self; xb := [] |};
       metadata_file := Some [] |}.
Proof.
  intros Hsome. unfold delete_by_filename. cbv zeta.
  rewrite kept_length_enumerate.
  destruct (filter_length_all (fun md => md_filename md <> filename) (metadata self))
    as [Hle Hiff].
  destruct (Z.eqb_spec
              (len (filter (fun md => md_filename md <> filename) (metadata self)))
              (len (metadata self))) as [Heq|Hne]; [|done].
  exfalso. apply Hsome, Hiff. lia.
Qed.

Lemma added_together_mono (history history' : list op) v md :
  history ⊆ history' -> added_together history v md -> added_together history' v md.
Proof.
  intros Hsub (e & ml & j & v0 & Hin & Hrest). exists e, ml, j, v0.
  split; [by apply Hsub|done].
Qed.

Lemma store_invariant_mono (history history' : list op) self :
  history ⊆ history' -> store_invariant history self -> store_invariant history' self.
Proof.
  intros Hsub [Hlen Hcorr]. split; [done|].
  intros i v md Hv Hmd. eapply added_together_mono; eauto.
Qed.

Lemma store_invariant_empty (history : list op) self :
  xb (index self) = [] -> metadata self = [] -> store_invariant history self.
Proof.
  intros Hx Hm. split.
  - unfold ntotal. by rewrite Hx, Hm.
  - intros i v md Hv. by rewrite Hx in Hv.
Qed.

(** One call keeps the invariant, with the call added to the history. *)
Lemma store_invariant_step (history : list op) self (o : op) :
  store_invariant history self ->
  store_invariant (history ++ [o]) (run_op self o).
Proof.
  intros Hinv.
  assert (Hold : store_invariant (history ++ [o]) self).
  { eapply store_invariant_mono; [|done]. set_solver. }
  destruct o as [e ml|filename|]; cbn [run_op].
  - unfold add_vectors.
    destruct (Z.eqb_spec (shape0 e) (len ml)) as [Hshape|]; cbn [negb]; [|done].
    unfold index_add. cbn [nd_dim nd_rows].
    destruct (nd_dim e =? d (index self)); [|done].
    cbn [snd]. unfold save. cbn [index xb metadata].
    destruct Hold as [Hlen Hcorr]. split.
    + unfold ntotal, shape0 in *. cbn [index xb metadata].
      rewrite !length_app, length_fmap. lia.
    + cbn [index xb metadata]. intros i v md Hv Hmd.
      unfold ntotal in Hlen.
      destruct (decide (i < length (xb (index self)))%nat) as [Hi|Hi].
      * rewrite lookup_app_l in Hv by done.
        rewrite lookup_app_l in Hmd by lia. eauto.
      * rewrite lookup_app_r in Hv by lia.
        rewrite lookup_app_r in Hmd by lia.
        rewrite list_lookup_fmap in Hv.
        destruct (nd_rows e !! (i - length (xb (index self)))%nat) as [v0|] eqn:E; [|done].
        injection Hv as <-.
        exists e, ml, (i - length (xb (index self)))%nat, v0.
        split; [set_solver|]. split; [done|]. split; [done|]. split; [done|].
        replace (length (xb (index self))) with (length (metadata self)) by lia. done.
  - unfold delete_by_filename. cbv zeta.
    destruct (_ =? _); [done|]. by apply store_invariant_empty.
  - by apply store_invariant_empty.
Qed.

Lemma store_invariant_run (history : list op) self (ops : list op) :
  store_invariant history self ->
  store_invariant (history ++ ops) (run_ops self ops).
Proof.
  revert history self. induction ops as [|o ops IH]; intros history self Hinv.
  - by rewrite app_nil_r.
  - cbn [run_ops foldl]. rewrite (assoc_L (++) history [o] ops : history ++ o :: ops = _).
    apply IH. by apply store_invariant_step.
Qed.

(** C1. After each call of every sequence of [add_vectors],
    [delete_by_filename] and [clear] on a new store, the index holds as
    many vectors as there are metadata entries, and the i-th vector and
    the i-th entry were passed together, at one position of one
    [add_vectors] call made so far. *)
Theorem store_invariant_always (embedding_dim : Z) (ops : list op) (k : nat) :
  store_invariant (take k ops) (run_ops (new_store embedding_dim) (take k ops)).
Proof.
  apply (store_invariant_run [] (new_store embedding_dim) (take k ops)).
  by apply store_invariant_empty.
Qed.

(** C7. [add_vectors] with a number of embeddings different from the
    number of metadata entries raises the mismatch error (a [ValueError]
    in the code) and leaves the store as it was: index, metadata and the
    files on disk. *)
Theorem add_vectors_mismatch (self : FAISSVectorStore) (embeddings : ndarray)
    (metadata_list : list Chunk) :
  shape0 embeddings <> len metadata_list ->
  add_vectors self embeddings metadata_list
  = (Raise (ValueError "Number of embeddings must match metadata list length"), self).
Proof.
  intros Hne. unfold add_vectors.
  by destruct (Z.eqb_spec (shape0 embeddings) (len metadata_list)).
Qed.

Lemma search_loop_empty_filter (self : FAISSVectorStore) (top_k : Z)
    (pairs : list (distance * Z)) (results : list Hit) :
  search_loop self top_k (Some []) pairs results
  = search_loop self top_k None pairs results.
Proof.
  revert results. induction pairs as [|[dist idx] pairs IH]; intros results; [done|].
  cbn [search_loop truthy andb]. destruct (idx =? -1); [done|].
  destruct (py_getitem (metadata self) idx); [|done].
  destruct (_ >=? top_k); [done|]. apply IH.
Qed.

(** C9. [search] with an empty list of filenames filters nothing: it
    returns what [search] without a filter returns. *)
Theorem search_empty_filter (self : FAISSVectorStore) (query_embedding : vector)
    (top_k : Z) :
  search self query_embedding top_k (Some [])
  = search self query_embedding top_k None.
Proof.
  unfold search. destruct (ntotal (index self) =? 0); [done|]. cbv zeta.
  destruct (faiss_search _ _ _ _); [|done]. apply search_loop_empty_filter.
Qed.

(** C10. [delete_by_filename] with a filename that no metadata entry
    carries leaves the store as it was: index, metadata and the files on
    disk. *)
Theorem delete_by_filename_absent (self : FAISSVectorStore) (filename : string) :
  (forall md, md ∈ metadata self -> md_filename md <> filename) ->
  delete_by_filename self filename = self.
Proof. intros Hall. apply delete_absent. by apply Forall_forall. Qed.

End StoreProperties.

(** Two embeddings for one metadata entry. *)
Lemma add_vectors_mismatch_witness :
  VectorStore.add_vectors Demo.two_files Demo.two_rows [Demo.chunk_a]
  = (Raise (ValueError "Number of embeddings must match metadata list length"),
     Demo.two_files).
Proof. apply add_vectors_mismatch. vm_compute. discriminate. Defined.

(** No chunk of the store comes from "c.txt". *)
Lemma delete_by_filename_absent_witness :
  VectorStore.delete_by_filename Demo.two_files "c.txt" = Demo.two_files.
Proof.
  apply delete_by_filename_absent. intros md Hmd.
  apply list_elem_of_In in Hmd. cbn in Hmd.
  destruct Hmd as [<-|[<-|[]]]; discriminate.
Defined.

(** C2 fails on the code. A store holds one chunk of "a.txt" and one of
    "b.txt"; after [delete_by_filename "a.txt"] the chunk of "b.txt" is gone
    as well: [_create_new_index] resets [self.metadata] right after the
    surviving entries were assigned to it, and no vector is added back to
    the new index. *)
Lemma delete_by_filename_loses_survivors :
  (Demo.chunk_b ∈ VectorStore.metadata Demo.two_files) /\
  md_filename Demo.chunk_b <> "a.txt" /\
  VectorStore.metadata (VectorStore.delete_by_filename Demo.two_files "a.txt") = [] /\
  VectorStore.ntotal
    (VectorStore.index (VectorStore.delete_by_filename Demo.two_files "a.txt")) = 0 /\
  VectorStore.metadata_file (VectorStore.delete_by_filename Demo.two_files "a.txt")
    = Some [] /\
  ("b.txt" ∈ VectorStore.get_all_filenames Demo.two_files) /\
  ("b.txt" ∉ VectorStore.get_all_filenames
               (VectorStore.delete_by_filename Demo.two_files "a.txt")) /\
  VectorStore.search Demo.two_files 9 5 (Some ["b.txt"]) <> Ok [] /\
  VectorStore.search (VectorStore.delete_by_filename Demo.two_files "a.txt") 9 5
    (Some ["b.txt"]) = Ok [].
Proof.
  split.
  { apply list_elem_of_In. vm_compute. auto. }
  split; [done|].
  assert (Hafter : VectorStore.metadata
            (VectorStore.delete_by_filename Demo.two_files "a.txt") = [])
    by (vm_compute; reflexivity).
  split; [done|]. split; [vm_compute; reflexivity|]. split; [vm_compute; reflexivity|].
  split.
  { unfold VectorStore.get_all_filenames. apply elem_of_list_to_set.
    apply list_elem_of_In. vm_compute. auto. }
  split.
  { unfold VectorStore.get_all_filenames. rewrite Hafter. set_solver. }
  split; [vm_compute; discriminate|vm_compute; reflexivity].
Qed.

(** ** rag_pipeline.py *)

Section PipelineProperties.
Import VectorStore Pipeline.
Context `{Backend}.
Variable requests_post : string -> Payload -> http_outcome.

Lemma fallback_answer_not_empty (prompt : string) :
  is_empty (_fallback_answer prompt) = false.
Proof. done. Qed.

(** C6. When [search] returns no chunk, [query] returns the fixed
    answer with no sources and sends nothing to the language-model
    service. *)
Theorem query_no_chunks (self : RAGPipeline) (question : string) (top_k : Z)
    (active_files : option (list string)) :
  search (vector_store self) (embed_query question) top_k active_files = Ok [] ->
  query requests_post self question top_k active_files
  = (Ok {| answer := "No relevant information found in the indexed documents.";
           sources := [] |}, []).
Proof. intros Hs. unfold query. cbv zeta. by rewrite Hs. Qed.

(** C5. When [search] returns chunks and the call to the generation
    service fails, [query] does not raise: its answer is the fallback
    text, which is not empty, says that the service is unavailable and
    contains the prompt verbatim, and its sources are the chunks of
    [search], in the same order. *)
Theorem query_fallback (self : RAGPipeline) (question : string) (top_k : Z)
    (active_files : option (list string)) (chunks : list Hit) :
  search (vector_store self) (embed_query question) top_k active_files = Ok chunks ->
  chunks <> [] ->
  generation_failed
    (requests_post (llm_endpoint self)
       (payload_for (PROMPT_TEMPLATE_format (_format_context chunks) question))) ->
  exists r sent,
    query requests_post self question top_k active_files = (Ok r, sent) /\
    sources r = chunks /\
    is_empty (answer r) = false /\
    answer r =
      "LLM service unavailable. Showing the retrieved context instead:" +:+ nl +:+ nl +:+
      PROMPT_TEMPLATE_format (_format_context chunks) question +:+ nl +:+ nl +:+
      "Start Ollama with `ollama serve` and ensure the `llama3.2` model is installed.".
Proof.
  intros Hs Hne Hfail. unfold query. cbv zeta. rewrite Hs.
  rewrite bool_decide_eq_false_2 by done.
  unfold _generate_answer. cbv zeta. fold (payload_for (PROMPT_TEMPLATE_format (_format_context chunks) question)).
  destruct (requests_post _ _) as [status_code response|status_code|status_code|];
    cbn in Hfail;
    try (destruct (Z.eqb_spec status_code 200) as [->|_]; [lia|]);
    (eexists _, _; split; [reflexivity|]; repeat split).
Qed.
End PipelineProperties.

(** An empty store returns no chunk. *)
Lemma query_no_chunks_witness :
  Pipeline.query Demo.no_connection Demo.empty_pipeline "what?" 5 None
  = (Ok {| Pipeline.answer := "No relevant information found in the indexed documents.";
           Pipeline.sources := [] |}, []).
Proof. apply query_no_chunks. reflexivity. Defined.

(** A store with two chunks and a service that answers 503. *)
Lemma query_fallback_witness :
  exists chunks,
    VectorStore.search Demo.two_files Demo.question_embedding 5 None = Ok chunks /\
    exists r sent,
      Pipeline.query Demo.unavailable Demo.pipeline "what?" 5 None = (Ok r, sent) /\
      Pipeline.sources r = chunks /\
      is_empty (Pipeline.answer r) = false /\
      Pipeline.answer r =
        "LLM service unavailable. Showing the retrieved context instead:" +:+ nl +:+ nl +:+
        Pipeline.PROMPT_TEMPLATE_format (Pipeline._format_context chunks) "what?" +:+ nl +:+ nl +:+
        "Start Ollama with `ollama serve` and ensure the `llama3.2` model is installed.".
Proof.
  eexists. split; [vm_compute; reflexivity|].
  apply query_fallback; [vm_compute; reflexivity|discriminate|cbn; lia].
Defined.

(** ** upload.py *)

Section UploadProperties.
Import VectorStore Upload.
Context `{Platform}.

(** A file with an extension outside the allowed set is rejected with
    status 400 before anything is written. *)
Lemma upload_unsupported_extension (app : App) (file : UploadFile) (fuel : nat) :
  ~ extension_allowed file ->
  exists detail,
    upload_file app file fuel = Some (Raise (HTTPException 400 detail), app).
Proof.
  intros Hext. unfold upload_file. cbv zeta.
  rewrite bool_decide_eq_true_2 by done. by eexists.
Qed.

(** C8 (as amended). An upload with an unsupported extension is
    rejected with a client error and nothing changes. An upload whose
    extracted text is empty is rejected with a client error and the
    vector store is unchanged, in memory and on disk; the uploaded file
    has been written under the uploads directory and stays there. *)
Theorem upload_rejected (app : App) (file : UploadFile) (fuel : nat) :
  ~ extension_allowed file \/ extracted_text_empty app file ->
  exists detail app',
    upload_file app file fuel = Some (Raise (HTTPException 400 detail), app') /\
    vector_store app' = vector_store app /\
    chunker app' = chunker app /\
    uploads_dir app' = uploads_dir app /\
    (~ extension_allowed file -> files app' = files app) /\
    (extension_allowed file ->
       files app' = <[save_path_of app file := uf_file file]> (files app)).
Proof.
  intros [Hext|(Hext & Hw & text & Hx & Hempty)].
  - destruct (upload_unsupported_extension app file fuel Hext) as [detail Hup].
    exists detail, app. repeat split; done.
  - unfold extension_allowed, save_path_of in *.
    eexists _, _. split.
    + unfold upload_file. cbv zeta.
      rewrite bool_decide_eq_false_2 by (intros Hn; by apply Hn).
      rewrite Hw. cbn [negb files set_files]. rewrite Hx, Hempty. reflexivity.
    + repeat split; done.
Qed.
End UploadProperties.

#[local] Existing Instances Demo.backend Demo.platform.

(** An empty text file. *)
Lemma upload_rejected_witness :
  exists detail app',
    Upload.upload_file Demo.app0 Demo.empty_upload 0
    = Some (Raise (HTTPException 400 detail), app') /\
    Upload.vector_store app' = Upload.vector_store Demo.app0 /\
    Upload.chunker app' = Upload.chunker Demo.app0 /\
    Upload.uploads_dir app' = Upload.uploads_dir Demo.app0 /\
    (~ extension_allowed Demo.empty_upload -> Upload.files app' = Upload.files Demo.app0) /\
    (extension_allowed Demo.empty_upload ->
       Upload.files app'
       = <[save_path_of Demo.app0 Demo.empty_upload := Upload.uf_file Demo.empty_upload]>
           (Upload.files Demo.app0)).
Proof.
  apply upload_rejected. right. split; [|split; [reflexivity|]].
  - unfold extension_allowed. apply list_elem_of_In. vm_compute. auto.
  - exists "". split; reflexivity.
Defined.

(** C8 (as stated) fails for an empty extracted text: the endpoint saves
    the file before it extracts and checks the text, and the rejection
    does not remove it. An empty "empty.txt" is answered with status 400,
    and the uploads directory holds the file afterwards. *)
Lemma empty_upload_leaves_file :
  exists detail app',
    Upload.upload_file Demo.app0 Demo.empty_upload 0
    = Some (Raise (HTTPException 400 detail), app') /\
    Upload.files Demo.app0 !! "uploads/empty.txt" = None /\
    Upload.files app' !! "uploads/empty.txt" = Some [] /\
    app' <> Demo.app0.
Proof.
  eexists _, _. split; [vm_compute; reflexivity|].
  split; [reflexivity|]. split; [reflexivity|].
  intros Heq. apply (f_equal (fun a => Upload.files a !! "uploads/empty.txt")) in Heq.
  vm_compute in Heq. discriminate.
Qed.

(** * Further properties *)

(** ** chunker.py: [_clean_text] *)

Lemma rstrip_no_space_app (w t : string) :
  no_space w = true -> rstrip (w +:+ t) = w +:+ rstrip t.
Proof.
  induction w as [|a w IH]; intros Hw; [done|].
  cbn [no_space] in Hw. apply andb_true_iff in Hw as [Ha Hw].
  rewrite !str_app_cons. cbn [rstrip]. rewrite IH by done.
  apply negb_true_iff in Ha. by rewrite Ha.
Qed.

Lemma split_go_not_nil (s w : string) :
  is_empty w = false -> split_go w s <> [].
Proof.
  revert w. induction s as [|a s IH]; intros w Hw; cbn [split_go].
  - unfold emit. by rewrite Hw.
  - destruct (isspace a).
    + unfold emit. by rewrite Hw.
    + apply IH. rewrite is_empty_app, Hw. done.
Qed.

Lemma join_cons (sep x : string) (l : list string) :
  l <> [] -> join sep (x :: l) = x +:+ sep +:+ join sep l.
Proof. by destruct l. Qed.

(** After a word [w]: the collapsed rest of the text, stripped on the
    right, is the words that [split] goes on to find. *)
Lemma clean_after_word (s : string) :
  (forall w, is_word w ->
     rstrip (w +:+ collapse_ws false s) = join " " (split_go w s)) /\
  (forall w, is_word w ->
     rstrip (w +:+ String " " (collapse_ws true s)) = join " " (w :: split_go "" s)).
Proof.
  induction s as [|a s [IHA IHB]]; split; intros w [Hne Hns].
  - cbn [collapse_ws split_go]. rewrite rstrip_no_space_app by done.
    unfold emit. rewrite Hne. cbn. by rewrite str_app_nil_r.
  - cbn [collapse_ws split_go]. rewrite rstrip_no_space_app by done.
    cbn. by rewrite str_app_nil_r.
  - cbn [collapse_ws split_go]. destruct (isspace a) eqn:Ea.
    + rewrite (IHB w) by done. unfold emit. by rewrite Hne.
    + change (w +:+ String a (collapse_ws false s))
        with (w +:+ (String a "" +:+ collapse_ws false s)).
      rewrite <- str_app_assoc. apply IHA. split.
      * by rewrite is_empty_app, Hne.
      * rewrite no_space_app, Hns. cbn. by rewrite Ea.
  - cbn [collapse_ws split_go]. destruct (isspace a) eqn:Ea.
    + rewrite (IHB w) by done. done.
    + assert (Hc : is_word (String a "")) by (split; cbn; [done|by rewrite Ea]).
      rewrite rstrip_no_space_app by done.
      change (String a (collapse_ws false s))
        with (String a "" +:+ collapse_ws false s).
      cbn [rstrip]. rewrite (IHA _ Hc).
      change ("" +:+ String a "") with (String a "").
      assert (Hnil : split_go (String a "") s <> [])
        by (by apply split_go_not_nil).
      destruct (join " " (split_go (String a "") s)) eqn:Ej.
      * exfalso. specialize (IHA _ Hc).
        rewrite rstrip_no_space_app in IHA by (by destruct Hc).
        rewrite Ej in IHA. discriminate.
      * cbn [is_empty]. rewrite andb_false_r.
        rewrite join_cons by done. by rewrite Ej.
Qed.

Lemma clean_from_start (s : string) (in_run : bool) :
  rstrip (lstrip (collapse_ws in_run s)) = join " " (split_go "" s).
Proof.
  revert in_run. induction s as [|a s IH]; intros in_run; [done|].
  cbn [collapse_ws split_go]. destruct (isspace a) eqn:Ea.
  - cbn [emit is_empty app]. rewrite <- (IH true). by destruct in_run; cbn [lstrip].
  - cbn [lstrip]. rewrite Ea.
    change (String a (collapse_ws false s)) with (String a "" +:+ collapse_ws false s).
    change ("" +:+ String a "") with (String a "").
    apply (proj1 (clean_after_word s)). split; [done|].
    cbn [no_space]. by rewrite Ea.
Qed.

Lemma clean_text_join (text : string) : _clean_text text = join " " (split text).
Proof. apply clean_from_start. Qed.

Lemma clean_text_split (text : string) : split (_clean_text text) = split text.
Proof. rewrite clean_text_join. apply split_join, split_is_word. Qed.

(** X1. [_clean_text] returns the words of the text joined by single
    spaces, and it keeps the words: splitting the cleaned text gives the
    words of the original. *)
Theorem clean_text_normal_form (text : string) :
  _clean_text text = join " " (split text) /\
  split (_clean_text text) = split text.
Proof. split; [apply clean_text_join|apply clean_text_split]. Qed.

(** X2. Cleaning a cleaned text changes nothing. *)
Theorem clean_text_idempotent (text : string) :
  _clean_text (_clean_text text) = _clean_text text.
Proof.
  rewrite (clean_text_join (_clean_text text)), clean_text_split.
  by rewrite clean_text_join.
Qed.

(** ** chunker.py: [chunk_text] *)

(** X3. A text with at most [words_per_chunk] words gives exactly one
    chunk, whatever the fuel: its text is the words joined by single
    spaces, its index is 0 and its total is 1. *)
Theorem chunk_text_single_chunk (self : TextChunker)
    (text filename file_type : string) (fuel : nat) :
  len (split text) <= words_per_chunk self ->
  chunk_text self text filename file_type fuel
  = Some [ {| md_text := join " " (split text); md_filename := filename;
              md_file_type := file_type; md_chunk_index := 0;
              md_total_chunks := Some 1 |} ].
Proof.
  intros Hshort. unfold chunk_text. cbv zeta.
  rewrite clean_text_split, clean_text_join.
  by destruct (Z.leb_spec (len (split text)) (words_per_chunk self)); [|lia].
Qed.

(** Three words fit in the 375 words of the default configuration. *)
Lemma chunk_text_single_chunk_witness :
  chunk_text (TextChunker_init 500 100) "  one two   three " "f.txt" "txt" 0
  = Some [ {| md_text := join " " (split "  one two   three "); md_filename := "f.txt";
              md_file_type := "txt"; md_chunk_index := 0;
              md_total_chunks := Some 1 |} ].
Proof. apply chunk_text_single_chunk. vm_compute. discriminate. Defined.

Section Labels.
Variable self : TextChunker.
Variable words : list string.
Variables filename file_type : string.

Lemma labelled_snoc (chunks : list Chunk) (s : Z) :
  labelled filename file_type chunks ->
  labelled filename file_type (chunks ++ [window self words filename file_type (len chunks) s]).
Proof.
  intros Hl k c Hk. destruct (decide (k < length chunks)%nat) as [Hlt|Hge].
  - rewrite lookup_app_l in Hk by done. by apply Hl.
  - rewrite lookup_app_r in Hk by lia.
    destruct (k - length chunks)%nat eqn:E; [|done]. injection Hk as <-.
    cbn. repeat split. lia.
Qed.

Lemma chunk_loop_labelled (fuel : nat) :
  forall chunks i s r,
    chunk_loop self words filename file_type fuel chunks i s = Some r ->
    i = len chunks -> labelled filename file_type chunks ->
    labelled filename file_type r /\ (length chunks <= length r)%nat /\
    (s < len words -> (length chunks < length r)%nat).
Proof.
  induction fuel as [|fuel IH]; intros chunks i s r Hrun Hi Hl; [done|].
  cbn [chunk_loop] in Hrun. destruct (Z.ltb_spec s (len words)) as [Hs|Hs].
  - subst i. pose proof (labelled_snoc chunks s Hl) as Hl'.
    destruct (_ >=? _).
    + injection Hrun as <-. split; [exact Hl'|]. rewrite length_app. cbn. lia.
    + apply IH in Hrun as (Hr & Hle & _); [| |exact Hl'].
      * split; [exact Hr|]. rewrite length_app in Hle. cbn in Hle. lia.
      * rewrite length_app. cbn. lia.
  - injection Hrun as <-. split; [exact Hl|]. lia.
Qed.
End Labels.

(** X4. Whenever [chunk_text] returns, every chunk carries the given
    filename and file type, the chunks are numbered 0, 1, 2, ... in order,
    and each one's [total_chunks] is the number of chunks returned; with a
    non-negative [words_per_chunk] there is at least one chunk. *)
Theorem chunk_text_labels (self : TextChunker) (text filename file_type : string)
    (fuel : nat) (chunks : list Chunk) :
  chunk_text self text filename file_type fuel = Some chunks ->
  (forall (k : nat) c, chunks !! k = Some c ->
     md_filename c = filename /\ md_file_type c = file_type /\
     md_chunk_index c = Z.of_nat k /\ md_total_chunks c = Some (len chunks)) /\
  (0 <= words_per_chunk self -> chunks <> []).
Proof.
  unfold chunk_text. cbv zeta.
  destruct (Z.leb_spec (len (split (_clean_text text))) (words_per_chunk self)) as [Hle|Hgt].
  - intros [= <-]. split; [|done]. intros [|k] c Hk; [|done]. by injection Hk as <-.
  - destruct (chunk_loop _ _ _ _ _ _ _ _) as [new|] eqn:Hrun; [|done].
    intros [= <-].
    apply chunk_loop_labelled in Hrun as (Hl & _ & Hne); [|done|by intros k c Hk].
    split.
    + intros k c Hk. rewrite list_lookup_fmap in Hk.
      destruct (new !! k) as [c0|] eqn:E; [|done]. injection Hk as <-.
      destruct (Hl k c0 E) as (? & ? & ?). cbn. rewrite length_fmap. done.
    + intros Hw Hnil. apply fmap_nil_inv in Hnil. subst new.
      cbn in Hne. lia.
Qed.

(** Seven words in three chunks. *)
Lemma chunk_text_labels_witness :
  exists chunks,
    chunk_text (TextChunker_init 4 2) "a b c d e f g" "f.txt" "txt" 5 = Some chunks /\
    (forall (k : nat) c, chunks !! k = Some c ->
       md_filename c = "f.txt" /\ md_file_type c = "txt" /\
       md_chunk_index c = Z.of_nat k /\ md_total_chunks c = Some (len chunks)) /\
    (0 <= words_per_chunk (TextChunker_init 4 2) -> chunks <> []).
Proof.
  eexists. split; [vm_compute; reflexivity|].
  apply (chunk_text_labels (TextChunker_init 4 2) "a b c d e f g" "f.txt" "txt" 5).
  vm_compute. reflexivity.
Defined.

(** ** vector_store.py: [search] *)

Section SearchProperties.
Import VectorStore.
Context `{Backend}.

Lemma py_getitem_elem_of {A} (l : list A) (i : Z) (x : A) :
  py_getitem l i = Some x -> x ∈ l.
Proof.
  unfold py_getitem. intros Hx.
  destruct (_ && _); [by eapply list_elem_of_lookup_2|].
  destruct (_ && _); [by eapply list_elem_of_lookup_2|done].
Qed.

Lemma search_loop_filtered (self : FAISSVectorStore) (top_k : Z) (l : list string)
    (pairs : list (distance * Z)) :
  l <> [] ->
  forall results hits,
    search_loop self top_k (Some l) pairs results = Ok hits ->
    Forall (fun h => r_filename h ∈ l) results ->
    Forall (fun h => r_filename h ∈ l) hits.
Proof.
  intros Hl. induction pairs as [|[dist idx] pairs IH]; intros results hits Hrun Hres.
  - by injection Hrun as <-.
  - cbn [search_loop] in Hrun. destruct (idx =? -1); [by eapply IH|].
    destruct (py_getitem (metadata self) idx) as [md|]; [|done].
    assert (truthy (Some l) = true) as Ht by (by destruct l).
    rewrite Ht in Hrun. cbn [andb not_in] in Hrun.
    destruct (bool_decide_reflect (md_filename md ∉ l)) as [|Hin]; [by eapply IH|].
    apply dec_stable in Hin.
    assert (Forall (fun h => r_filename h ∈ l)
              (results ++ [ {| r_text := md_text md; r_filename := md_filename md;
                               r_file_type := md_file_type md;
                               r_chunk_index := md_chunk_index md;
                               r_score := score_of_distance dist |} ])) as Hres'.
    { apply Forall_app. split; [done|]. by repeat constructor. }
    destruct (_ >=? top_k); [by injection Hrun as <-|by eapply IH].
Qed.

(** X5. With a non-empty list of filenames, [search] returns only
    chunks whose filename is in the list. *)
Theorem search_only_filtered (self : FAISSVectorStore) (query_embedding : vector)
    (top_k : Z) (filter_filenames : list string) (hits : list Hit) :
  filter_filenames <> [] ->
  search self query_embedding top_k (Some filter_filenames) = Ok hits ->
  forall h, h ∈ hits -> r_filename h ∈ filter_filenames.
Proof.
  intros Hl Hs. apply Forall_forall. unfold search in Hs.
  destruct (ntotal (index self) =? 0); [by injection Hs as <-|]. cbv zeta in Hs.
  destruct (faiss_search _ _ _ _) as [pairs|]; [|done].
  by eapply search_loop_filtered.
Qed.

Lemma search_loop_bounded (self : FAISSVectorStore) (top_k : Z)
    (filter_filenames : option (list string)) (pairs : list (distance * Z)) :
  forall results hits,
    search_loop self top_k filter_filenames pairs results = Ok hits ->
    len results < top_k -> len hits <= top_k.
Proof.
  induction pairs as [|[dist idx] pairs IH]; intros results hits Hrun Hres.
  - injection Hrun as <-. lia.
  - cbn [search_loop] in Hrun. destruct (idx =? -1); [by eapply IH|].
    destruct (py_getitem (metadata self) idx) as [md|]; [|done].
    destruct (_ && _); [by eapply IH|]. cbv zeta in Hrun.
    rewrite Z.geb_leb in Hrun.
    destruct (Z.leb_spec top_k (len (results ++
      [ {| r_text := md_text md; r_filename := md_filename md;
           r_file_type := md_file_type md; r_chunk_index := md_chunk_index md;
           r_score := score_of_distance dist |} ]))) as [Hfull|Hmore].
    + injection Hrun as <-. rewrite length_app in *. cbn in *. lia.
    + by eapply IH.
Qed.

(** X6. For [top_k >= 1], [search] returns at most [top_k] chunks. *)
Theorem search_at_most_top_k (self : FAISSVectorStore) (query_embedding : vector)
    (top_k : Z) (filter_filenames : option (list string)) (hits : list Hit) :
  1 <= top_k ->
  search self query_embedding top_k filter_filenames = Ok hits ->
  len hits <= top_k.
Proof.
  intros Hk Hs. unfold search in Hs.
  destruct (ntotal (index self) =? 0); [injection Hs as <-; cbn; lia|]. cbv zeta in Hs.
  destruct (faiss_search _ _ _ _) as [pairs|]; [|done].
  eapply search_loop_bounded; [done|]. cbn. lia.
Qed.

Lemma search_loop_pairs (self : FAISSVectorStore) (top_k : Z)
    (filter_filenames : option (list string)) (pairs : list (distance * Z)) :
  forall results hits,
    search_loop self top_k filter_filenames pairs results = Ok hits ->
    exists new kept,
      hits = results ++ new /\ kept `sublist_of` pairs /\
      Forall2 (fun h p => answers_pair self p h) new kept.
Proof.
  induction pairs as [|[dist idx] pairs IH]; intros results hits Hrun.
  - injection Hrun as <-. exists [], []. by rewrite app_nil_r.
  - cbn [search_loop] in Hrun.
    assert (Hskip : forall results',
              search_loop self top_k filter_filenames pairs results' = Ok hits ->
              results' = results ->
              exists new kept,
                hits = results ++ new /\ kept `sublist_of` (dist, idx) :: pairs /\
                Forall2 (fun h p => answers_pair self p h) new kept).
    { intros results' Hr ->. apply IH in Hr as (new & kept & ? & ? & ?).
      exists new, kept. split; [done|]. split; [by apply sublist_cons|done]. }
    destruct (Z.eqb_spec idx (-1)) as [|Hidx]; [by eapply Hskip|].
    destruct (py_getitem (metadata self) idx) as [md|] eqn:Emd; [|done].
    destruct (_ && _); [by eapply Hskip|]. cbv zeta in Hrun.
    assert (Hh : answers_pair self (dist, idx)
              {| r_text := md_text md; r_filename := md_filename md;
                 r_file_type := md_file_type md; r_chunk_index := md_chunk_index md;
                 r_score := score_of_distance dist |}) by (by exists md).
    destruct (_ >=? top_k).
    + injection Hrun as <-. eexists [_], [(dist, idx)]. split; [done|].
      split; [apply sublist_skip, sublist_nil_l|by repeat constructor].
    + apply IH in Hrun as (new & kept & -> & Hsub & Hall).
      eexists (_ :: new), ((dist, idx) :: kept). rewrite <- app_assoc.
      split; [done|]. split; [by apply sublist_skip|by constructor].
Qed.

(** X7. The results of [search] follow the answer of the index: they
    correspond, in order, to some of the pairs of a distance and a
    position that the index returned, and each result has the text,
    filename, file type and chunk index of the metadata entry at its
    position, and the score computed from its distance. *)
Theorem search_from_metadata (self : FAISSVectorStore) (query_embedding : vector)
    (top_k : Z) (filter_filenames : option (list string)) (hits : list Hit) :
  search self query_embedding top_k filter_filenames = Ok hits ->
  hits = [] \/
  exists pairs kept,
    faiss_search (d (index self)) (xb (index self)) (astype_float32 query_embedding)
      (Z.min (top_k * 2) (ntotal (index self))) = Ok pairs /\
    kept `sublist_of` pairs /\
    Forall2 (fun h p => answers_pair self p h) hits kept.
Proof.
  intros Hs. unfold search in Hs.
  destruct (ntotal (index self) =? 0); [left; by injection Hs as <-|]. cbv zeta in Hs.
  destruct (faiss_search _ _ _ _) as [pairs|]; [|done].
  apply search_loop_pairs in Hs as (new & kept & -> & Hsub & Hall).
  right. by exists pairs, kept.
Qed.

Lemma py_getitem_in_range {A} (l : list A) (i : Z) :
  - len l <= i < len l -> is_Some (py_getitem l i).
Proof.
  intros Hi. unfold py_getitem.
  destruct (Z.leb_spec 0 i) as [Hpos|Hneg]; cbn [andb].
  - destruct (Z.ltb_spec i (len l)); [|lia]. apply lookup_lt_is_Some_2. lia.
  - destruct (Z.leb_spec (- len l) i); [|lia].
    destruct (Z.ltb_spec i 0); [|lia]. cbn [andb].
    apply lookup_lt_is_Some_2. lia.
Qed.

Lemma search_loop_in_range (self : FAISSVectorStore) (top_k : Z)
    (filter_filenames : option (list string)) (pairs : list (distance * Z)) :
  Forall (fun p => -1 <= snd p < len (metadata self)) pairs ->
  forall results, exists hits,
    search_loop self top_k filter_filenames pairs results = Ok hits.
Proof.
  induction 1 as [|[dist idx] pairs Hidx _ IH]; intros results; [by eexists|].
  cbn [search_loop snd] in *. destruct (Z.eqb_spec idx (-1)); [apply IH|].
  destruct (py_getitem_in_range (metadata self) idx) as [md ->]; [lia|].
  destruct (_ && _); [apply IH|]. cbv zeta.
  destruct (_ >=? top_k); [by eexists|apply IH].
Qed.

(** X8. While the index holds as many vectors as there are metadata
    entries, and the index answers with positions of stored vectors or
    with -1, [search] returns a list: no lookup in the metadata fails. *)
Theorem search_returns (self : FAISSVectorStore) (query_embedding : vector)
    (top_k : Z) (filter_filenames : option (list string)) (pairs : list (distance * Z)) :
  ntotal (index self) = len (metadata self) ->
  faiss_search (d (index self)) (xb (index self)) (astype_float32 query_embedding)
    (Z.min (top_k * 2) (ntotal (index self))) = Ok pairs ->
  Forall (fun p => -1 <= snd p < ntotal (index self)) pairs ->
  exists hits, search self query_embedding top_k filter_filenames = Ok hits.
Proof.
  intros Hn Hs Hpairs. unfold search.
  destruct (ntotal (index self) =? 0); [by eexists|]. cbv zeta. rewrite Hs.
  apply search_loop_in_range. by rewrite <- Hn.
Qed.

End SearchProperties.

(** A filter that keeps one of the two files. *)
Lemma search_only_filtered_witness :
  exists hits,
    VectorStore.search Demo.two_files 9 5 (Some ["a.txt"]) = Ok hits /\
    forall h, h ∈ hits -> VectorStore.r_filename h ∈ ["a.txt"].
Proof.
  eexists. split; [vm_compute; reflexivity|].
  apply (search_only_filtered Demo.two_files 9 5); [discriminate|vm_compute; reflexivity].
Defined.

(** Two stored chunks and [top_k = 1]. *)
Lemma search_at_most_top_k_witness :
  exists hits,
    VectorStore.search Demo.two_files 9 1 None = Ok hits /\ len hits <= 1.
Proof.
  eexists. split; [vm_compute; reflexivity|].
  apply (search_at_most_top_k Demo.two_files 9 1 None); [lia|vm_compute; reflexivity].
Defined.

Lemma search_from_metadata_witness :
  exists hits,
    VectorStore.search Demo.two_files 9 5 (Some ["a.txt"]) = Ok hits /\
    (hits = [] \/
     exists pairs kept,
       faiss_search (VectorStore.d (VectorStore.index Demo.two_files))
         (VectorStore.xb (VectorStore.index Demo.two_files)) (astype_float32 9)
         (Z.min (5 * 2) (VectorStore.ntotal (VectorStore.index Demo.two_files)))
       = Ok pairs /\
       kept `sublist_of` pairs /\
       Forall2 (fun h p => answers_pair Demo.two_files p h) hits kept).
Proof.
  eexists. split; [vm_compute; reflexivity|].
  apply (search_from_metadata Demo.two_files 9 5 (Some ["a.txt"])).
  vm_compute. reflexivity.
Defined.

Lemma search_returns_witness :
  exists hits, VectorStore.search Demo.two_files 9 5 (Some ["b.txt"]) = Ok hits.
Proof.
  apply (search_returns Demo.two_files 9 5 (Some ["b.txt"]) [(0, 1); (16, 0)]).
  - reflexivity.
  - vm_compute. reflexivity.
  - repeat constructor; cbn; lia.
Defined.

(** ** vector_store.py: persistence, [add_vectors], [delete_by_filename] *)

Section PersistenceProperties.
Import VectorStore.
Context `{Backend}.

Lemma reloads_save (self : FAISSVectorStore) : reloads (save self).
Proof. done. Qed.

Lemma run_op_reloads (self : FAISSVectorStore) (o : op) :
  reloads self ->
  reloads (run_op self o) /\ embedding_dim (run_op self o) = embedding_dim self.
Proof.
  intros Hr. destruct o as [e ml|filename|]; cbn [run_op].
  - unfold add_vectors. destruct (negb _); [done|].
    destruct (index_add _ _); [|done]. split; [apply reloads_save|done].
  - unfold delete_by_filename. cbv zeta. destruct (_ =? _); [done|].
    split; [apply reloads_save|done].
  - split; [apply reloads_save|done].
Qed.

Lemma run_ops_reloads (ops : list op) :
  forall self, reloads self ->
    reloads (run_ops self ops) /\ embedding_dim (run_ops self ops) = embedding_dim self.
Proof.
  induction ops as [|o ops IH]; intros self Hr; [done|].
  cbn [run_ops foldl]. destruct (run_op_reloads self o Hr) as [Hr' Hd].
  destruct (IH _ Hr') as [? Hd']. split; [done|]. unfold run_ops in Hd'. congruence.
Qed.

(** X9. Restart round trip: after any sequence of [add_vectors],
    [delete_by_filename] and [clear] on a store created in an empty
    directory, constructing a store again on the same directory gives the
    same index and the same metadata, so every search answers as before. *)
Theorem restart_round_trip (embedding_dim : Z) (ops : list op) :
  init embedding_dim
    (index_file (run_ops (new_store embedding_dim) ops))
    (metadata_file (run_ops (new_store embedding_dim) ops))
  = Ok (run_ops (new_store embedding_dim) ops).
Proof.
  destruct (run_ops_reloads ops (new_store embedding_dim)) as [Hr Hd]; [done|].
  unfold reloads in Hr. by rewrite Hd in Hr.
Qed.

(** X10. [add_vectors] with as many embeddings as metadata entries, of
    the dimension of the index, succeeds: the vectors (as float32) and the
    entries are appended in order, the count grows by their number, the
    new filenames join the indexed ones, and both files are written with
    the new state. *)
Theorem add_vectors_appends (self : FAISSVectorStore) (embeddings : ndarray)
    (metadata_list : list Chunk) :
  shape0 embeddings = len metadata_list ->
  nd_dim embeddings = d (index self) ->
  exists self',
    add_vectors self embeddings metadata_list = (Ok tt, self') /\
    xb (index self') = xb (index self) ++ (astype_float32 <$> nd_rows embeddings) /\
    metadata self' = metadata self ++ metadata_list /\
    ntotal (index self') = ntotal (index self) + len metadata_list /\
    get_all_filenames self'
    = get_all_filenames self ∪ list_to_set (md_filename <$> metadata_list) /\
    index_file self' = Some (index self') /\
    metadata_file self' = Some (metadata self').
Proof.
  intros Hshape Hdim. unfold add_vectors, index_add. cbn [nd_dim nd_rows].
  rewrite Hshape, Hdim, !Z.eqb_refl. cbn [negb]. eexists. split; [reflexivity|].
  cbn. repeat split.
  - unfold ntotal, shape0 in *. cbn. rewrite length_app, length_fmap. lia.
  - unfold get_all_filenames. cbn. by rewrite fmap_app, list_to_set_app_L.
Qed.

(** X11. After [delete_by_filename], the filename is no longer among
    the indexed ones, and deleting it a second time changes nothing. *)
Theorem delete_by_filename_removes (self : FAISSVectorStore) (filename : string) :
  (filename ∉ get_all_filenames (delete_by_filename self filename)) /\
  delete_by_filename (delete_by_filename self filename) filename
  = delete_by_filename self filename.
Proof.
  destruct (decide (Forall (fun md => md_filename md <> filename) (metadata self)))
    as [Hall|Hsome].
  - rewrite !delete_absent by done. split; [|done].
    unfold get_all_filenames. rewrite elem_of_list_to_set, list_elem_of_fmap.
    intros (md & Heq & Hin). rewrite Forall_forall in Hall. by apply (Hall md).
  - rewrite (delete_present self filename Hsome). split.
    + unfold get_all_filenames. cbn. set_solver.
    + by apply delete_absent.
Qed.

End PersistenceProperties.

(** The two chunks of [Demo.two_files] are added to an empty store. *)
Lemma add_vectors_appends_witness :
  exists self',
    VectorStore.add_vectors (VectorStore.new_store 1) Demo.two_rows
      [Demo.chunk_a; Demo.chunk_b] = (Ok tt, self') /\
    VectorStore.xb (VectorStore.index self')
    = VectorStore.xb (VectorStore.index (VectorStore.new_store 1))
      ++ (astype_float32 <$> VectorStore.nd_rows Demo.two_rows) /\
    VectorStore.metadata self'
    = VectorStore.metadata (VectorStore.new_store 1) ++ [Demo.chunk_a; Demo.chunk_b] /\
    VectorStore.ntotal (VectorStore.index self')
    = VectorStore.ntotal (VectorStore.index (VectorStore.new_store 1))
      + len [Demo.chunk_a; Demo.chunk_b] /\
    VectorStore.get_all_filenames self'
    = VectorStore.get_all_filenames (VectorStore.new_store 1)
      ∪ list_to_set (md_filename <$> [Demo.chunk_a; Demo.chunk_b]) /\
    VectorStore.index_file self' = Some (VectorStore.index self') /\
    VectorStore.metadata_file self' = Some (VectorStore.metadata self').
Proof. apply add_vectors_appends; reflexivity. Defined.

(** ** rag_pipeline.py: the generation call *)

Section QueryProperties.
Import VectorStore Pipeline.
Context `{Backend}.
Variable requests_post : string -> Payload -> http_outcome.


(** X13. [query] contacts the generation service at most once. Every
    request it sends is for the model "llama3.2", not streamed, with the
    fixed system prompt and a prompt built from the question; and a
    request is sent exactly when [search] returns at least one chunk. *)
Theorem query_sends_at_most_once (self : RAGPipeline) (question : string) (top_k : Z)
    (active_files : option (list string)) :
  (length (snd (query requests_post self question top_k active_files)) <= 1)%nat /\
  (forall p, p ∈ snd (query requests_post self question top_k active_files) ->
     p_model p = "llama3.2" /\ p_stream p = false /\ p_system p = SYSTEM_PROMPT /\
     exists context, p_prompt p = PROMPT_TEMPLATE_format context question) /\
  (snd (query requests_post self question top_k active_files) = [] <->
   (exists e, search (vector_store self) (embed_query question) top_k active_files
              = Raise e) \/
   search (vector_store self) (embed_query question) top_k active_files = Ok []).
Proof.
  unfold query. cbv zeta.
  destruct (search _ _ _ _) as [chunks|e0].
  2: { cbn [fst snd length]. split; [lia|].
       split; [|split; [intros _; left; by eexists|done]].
       intros p Hp. by apply not_elem_of_nil in Hp. }
  destruct (bool_decide_reflect (chunks = [])) as [->|Hne].
  { cbn [fst snd length]. split; [lia|].
    split; [|split; [intros _; by right|done]].
    intros p Hp. by apply not_elem_of_nil in Hp. }
  unfold _generate_answer. cbv zeta.
  assert (Hno : ~ ((exists e, Ok chunks = Raise e) \/ Ok chunks = Ok [])).
  { intros [[e He]|He]; [done|]. by injection He. }
  destruct (requests_post _ _) as [code body|code|code|]; try destruct (code =? 200);
    cbn [fst snd length]; (split; [lia|split; [|split; [done|by intros ?]]]);
    intros p Hp; apply list_elem_of_singleton in Hp; subst p;
    cbn [p_model p_stream p_system p_prompt]; eauto 10.
Qed.

End QueryProperties.


(** ** upload.py: outcomes of [upload_file] *)

Section UploadOutcomes.
Import VectorStore Upload.
Context `{Platform}.

Lemma add_vectors_raise (self self' : FAISSVectorStore) (embeddings : ndarray)
    (metadata_list : list Chunk) (e : exn) :
  add_vectors self embeddings metadata_list = (Raise e, self') -> self' = self.
Proof.
  unfold add_vectors. destruct (negb _); [by intros [= _ <-]|].
  destruct (index_add _ _); [done|by intros [= _ <-]].
Qed.





End UploadOutcomes.



(** ** query.py *)

Section QueryApiProperties.
Import VectorStore Pipeline QueryApi.
Context `{Backend}.
Variable requests_post : string -> Payload -> http_outcome.



End QueryApiProperties.



(** ** query.py: [list_files], and the counts of main.py *)

Section ListingProperties.
Import VectorStore QueryApi.
Context `{Backend}.

Lemma sum_zero {A} (ks : list A) : foldr Z.add 0 ((fun _ => 0) <$> ks) = 0.
Proof. induction ks as [|k ks IH]; [done|]. cbn. by rewrite IH. Qed.

Lemma sum_add {A} (f g : A -> Z) (ks : list A) :
  foldr Z.add 0 ((fun k => f k + g k) <$> ks)
  = foldr Z.add 0 (f <$> ks) + foldr Z.add 0 (g <$> ks).
Proof. induction ks as [|k ks IH]; [done|]. cbn. rewrite IH. lia. Qed.

(** Over a list without duplicates, one element at most is [x]. *)
Lemma sum_indicator (x : string) (ks : list string) :
  NoDup ks -> x ∈ ks ->
  foldr Z.add 0 ((fun k => if decide (x = k) then 1 else 0) <$> ks) = 1.
Proof.
  induction 1 as [|k ks Hk Hnd IH]; intros Hx; [by inversion Hx|].
  cbn. destruct (decide (x = k)) as [->|Hne].
  - rewrite (list_fmap_ext (fun k0 => if decide (k = k0) then 1 else 0) (fun _ => 0) ks).
    + by rewrite sum_zero.
    + intros i k0 Hk0. destruct (decide (k = k0)) as [<-|]; [|done].
      exfalso. apply Hk. by eapply list_elem_of_lookup_2.
  - rewrite IH; [done|]. by apply elem_of_cons in Hx as [?|?].
Qed.

Lemma count_by_filename (ks : list string) (l : list Chunk) :
  NoDup ks -> (forall md, md ∈ l -> md_filename md ∈ ks) ->
  foldr Z.add 0 ((fun k => len (filter (fun md => md_filename md = k) l)) <$> ks)
  = len l.
Proof.
  intros Hnd. induction l as [|md l IH]; intros Hin.
  - apply sum_zero.
  - transitivity
      (foldr Z.add 0
         ((fun k => len (filter (fun md => md_filename md = k) l)
                    + (if decide (md_filename md = k) then 1 else 0)) <$> ks)).
    + f_equal. apply list_fmap_ext. intros i k Hk. rewrite filter_cons.
      destruct (decide (md_filename md = k)); cbn [length]; lia.
    + rewrite sum_add, IH, sum_indicator; [cbn [length]; lia|done|set_solver|set_solver].
Qed.

(** X18. [list_files] accounts for every chunk exactly once: the chunk
    counts of its entries add up to the number of metadata entries of the
    store. *)
Theorem list_files_total (vector_store : FAISSVectorStore) :
  listed_chunks (list_files vector_store) = len (metadata vector_store).
Proof.
  unfold listed_chunks, list_files. rewrite <- list_fmap_compose.
  apply (count_by_filename _ (metadata vector_store)).
  - apply NoDup_elements.
  - intros md Hmd. apply elem_of_elements. unfold get_all_filenames.
    apply elem_of_list_to_set, list_elem_of_fmap. eauto.
Qed.

(** X19. [list_files] names each indexed file once: its filenames are
    those of [get_all_filenames], each listed one time, and a filename is
    listed exactly when a metadata entry carries it. Each entry counts at
    least one chunk, and its file type is the type of the first chunk of
    that file in the store: the default ['unknown'] is never used. *)
Theorem list_files_entries (vector_store : FAISSVectorStore) :
  fi_filename <$> list_files vector_store = elements (get_all_filenames vector_store) /\
  NoDup (fi_filename <$> list_files vector_store) /\
  (forall filename,
     filename ∈ fi_filename <$> list_files vector_store <->
     exists md, md ∈ metadata vector_store /\ md_filename md = filename) /\
  forall info, info ∈ list_files vector_store ->
    1 <= fi_num_chunks info /\
    exists md rest,
      filter (fun md => md_filename md = fi_filename info) (metadata vector_store)
      = md :: rest /\
      fi_file_type info = md_file_type md.
Proof.
  assert (Hnames : fi_filename <$> list_files vector_store
                   = elements (get_all_filenames vector_store)).
  { unfold list_files. rewrite <- list_fmap_compose.
    rewrite (list_fmap_ext _ id (elements (get_all_filenames vector_store))) by done.
    apply list_fmap_id. }
  split; [done|]. split; [rewrite Hnames; apply NoDup_elements|]. split.
  - intros filename. rewrite Hnames, elem_of_elements. unfold get_all_filenames.
    rewrite elem_of_list_to_set, list_elem_of_fmap. split.
    + intros (md & -> & Hmd). eauto.
    + intros (md & Hmd & <-). eauto.
  - unfold list_files. intros info Hinfo.
    apply list_elem_of_fmap in Hinfo as (k & -> & Hk).
    apply elem_of_elements in Hk. unfold get_all_filenames in Hk.
    apply elem_of_list_to_set, list_elem_of_fmap in Hk as (md0 & -> & Hmd0).
    unfold file_info. cbn.
    destruct (filter (fun md => md_filename md = md_filename md0) (metadata vector_store))
      as [|md rest] eqn:E.
    + exfalso. eapply (filter_nil_not_elem_of _ _ md0); [exact E|done|done].
    + split; [cbn [length]; lia|]. by exists md, rest.
Qed.

(** X20. On a store reached from a new one by [add_vectors],
    [delete_by_filename] and [clear], the status endpoints never report
    more indexed files than vectors, and report no file exactly when they
    report no vector. *)
Theorem root_counts (embedding_dim : Z) (ops : list op) :
  0 <= indexed_files (root (run_ops (new_store embedding_dim) ops))
    <= total_vectors (root (run_ops (new_store embedding_dim) ops)) /\
  (indexed_files (root (run_ops (new_store embedding_dim) ops)) = 0 <->
   total_vectors (root (run_ops (new_store embedding_dim) ops)) = 0).
Proof.
  destruct (store_invariant_run [] (new_store embedding_dim) ops) as [Hn _];
    [by apply store_invariant_empty|].
  set (s := run_ops (new_store embedding_dim) ops) in *.
  unfold root. cbn [indexed_files total_vectors]. rewrite Hn.
  assert (Hks : forall x, x ∈ elements (get_all_filenames s) <->
                          x ∈ md_filename <$> metadata s).
  { intros x. unfold get_all_filenames.
    by rewrite elem_of_elements, elem_of_list_to_set. }
  assert (Hsub : elements (get_all_filenames s) ⊆+ (md_filename <$> metadata s)).
  { apply NoDup_submseteq; [apply NoDup_elements|]. intros x. apply Hks. }
  apply submseteq_length in Hsub. rewrite length_fmap in Hsub.
  split; [lia|]. split.
  - intros H0. destruct (metadata s) as [|md l] eqn:E; [done|].
    assert (Hin : md_filename md ∈ elements (get_all_filenames s)).
    { apply Hks. apply list_elem_of_fmap. exists md. split; [done|]. by left. }
    destruct (elements (get_all_filenames s)); [by inversion Hin|]. cbn in H0. lia.
  - intros H0. destruct (metadata s); [|cbn in H0; lia]. cbn in Hsub. lia.
Qed.

End ListingProperties.
